(** * Family registry service: relationship engine, tree builder, delete handler

    A shallow embedding of [api/index.py].  The member records are the JSON
    dictionaries the service keeps under the key "family"; the functions
    embedded here are [calculate_relationship], the graph construction of
    [generate_family_tree], [load_data], [save_data] and the DELETE handler
    [delete_family_member]. *)

From Stdlib Require Import ZArith String Ascii DecimalString DecimalPos DecimalZ.
From stdpp Require Import gmap strings list fin_maps.

Local Open Scope Z_scope.

(** ** Data model *)

(** The two kinds of value a parent field holds: JSON null (Python [None])
    or an integer id. *)
Inductive pyval : Type :=
  | PyNone
  | PyInt (z : Z).

(** A member dictionary.  The keys "id" and "name" are read with
    [member["id"]] and [member["name"]]; "anggota", "parent1_id" and
    "parent2_id" are read through [.get] or guarded by [in], so for them
    [None] stands for a key that is absent from the dictionary. *)
Record member : Type := Member {
  id : Z;
  name : string;
  anggota : option string;
  parent1_id : option pyval;
  parent2_id : option pyval
}.

(** [d.get(key)]: an absent key reads as [None]. *)
Definition dict_get (field : option pyval) : pyval :=
  match field with
  | Some v => v
  | None => PyNone
  end.

(** Python [==] on the values above. *)
Definition py_eq (a b : pyval) : bool :=
  match a, b with
  | PyNone, PyNone => true
  | PyInt x, PyInt y => x =? y
  | _, _ => false
  end.

(** Python truthiness: [None] and [0] are falsy. *)
Definition truthy (v : pyval) : bool :=
  match v with
  | PyNone => false
  | PyInt z => negb (z =? 0)
  end.

(** [x in (a, b, ...)] *)
Definition py_in (x : pyval) (t : list pyval) : bool :=
  existsb (fun e => py_eq e x) t.

(** The relationship labels written by [calculate_relationship]. *)
Inductive relationship : Type :=
  | Anak        (* "Anak": child *)
  | Cucu        (* "Cucu": grandchild *)
  | Keponakan   (* "Keponakan": niece or nephew *)
  | Saudara.    (* "Saudara": sibling *)

Definition relationship_label (r : relationship) : string :=
  match r with
  | Anak => "Anak"
  | Cucu => "Cucu"
  | Keponakan => "Keponakan"
  | Saudara => "Saudara"
  end.

(** ** Relationship engine *)

(** [{member["id"]: member for member in family}]: the comprehension
    stores the members in list order, a later one replacing an earlier one
    under the same key. *)
Definition id_to_member (family : list member) : gmap Z member :=
  foldl (fun index member => <[id member := member]> index) ∅ family.

(** [id_to_member.get(key, {})]: the keys of the index are integers, so
    [None] is never found; the empty dictionary is rendered by [None]. *)
Definition index_get (index : gmap Z member) (key : pyval) : option member :=
  match key with
  | PyInt z => index !! z
  | PyNone => None
  end.

(** [d.get("parent1_id")] and [d.get("parent2_id")] on the result of
    [index_get]; on the empty dictionary both give [None]. *)
Definition get_parent1 (d : option member) : pyval :=
  match d with
  | Some m => dict_get (parent1_id m)
  | None => PyNone
  end.

Definition get_parent2 (d : option member) : pyval :=
  match d with
  | Some m => dict_get (parent2_id m)
  | None => PyNone
  end.

Section Rules.
Variable index : gmap Z member.
Variable member_id : Z.
Variable m : member.

Definition member_parents : list pyval :=
  [dict_get (parent1_id m); dict_get (parent2_id m)].

(** [member_id in member_parents] *)
Definition rule_anak : bool :=
  py_in (PyInt member_id) member_parents.

(** [any(id_to_member.get(parent_id, {}).get("parent1_id") == member_id
        for parent_id in member_parents if parent_id)] *)
Definition rule_cucu : bool :=
  existsb
    (fun parent_id =>
       py_eq (get_parent1 (index_get index parent_id)) (PyInt member_id))
    (List.filter truthy member_parents).

(** [member_id in (id_to_member.get(parent1_id, {}).get("parent1_id"),
                   id_to_member.get(parent1_id, {}).get("parent2_id"))] *)
Definition rule_keponakan : bool :=
  py_in (PyInt member_id)
    [get_parent1 (index_get index (dict_get (parent1_id m)));
     get_parent2 (index_get index (dict_get (parent1_id m)))].

(** [parent1_id and id_to_member.get(parent1_id, {}).get("parent1_id")
                    == id_to_member.get(member_id, {}).get("parent1_id")] *)
Definition rule_saudara : bool :=
  truthy (dict_get (parent1_id m))
  && py_eq (get_parent1 (index_get index (dict_get (parent1_id m))))
           (get_parent1 (index_get index (PyInt member_id))).

(** The [if]/[elif] chain of the loop body; [None] when no branch is
    taken and nothing is written. *)
Definition relate : option relationship :=
  if rule_anak then Some Anak
  else if rule_cucu then Some Cucu
  else if rule_keponakan then Some Keponakan
  else if rule_saudara then Some Saudara
  else None.
End Rules.

(** One iteration of [for member in family]: the subject is skipped with
    [continue]; otherwise the label chosen by the chain is stored under
    [member["id"]]. *)
Definition relate_step (index : gmap Z member) (member_id : Z)
    (relationships : gmap Z relationship) (m : member) : gmap Z relationship :=
  if id m =? member_id then relationships
  else match relate index member_id m with
       | Some r => <[id m := r]> relationships
       | None => relationships
       end.

Definition calculate_relationship (family : list member) (member_id : Z)
    : gmap Z relationship :=
  foldl (relate_step (id_to_member family) member_id) ∅ family.

(** The label the loop writes on the iteration for [m], if it writes one. *)
Definition written (index : gmap Z member) (member_id : Z) (m : member)
    : option relationship :=
  if id m =? member_id then None else relate index member_id m.

(** The labels written under the key [i] while the loop runs over
    [family], in the order of the iterations. *)
Definition writes_for (index : gmap Z member) (member_id : Z) (i : Z)
    (family : list member) : list relationship :=
  omap (fun m => if decide (id m = i) then written index member_id m else None)
       family.

(** No other member of the list carries the id of [m]. *)
Definition sole_bearer (family : list member) (m : member) : Prop :=
  Forall (fun m' => id m' = id m -> m' = m) family.

(** One of the two parent ids of [m], being non-zero, is found in the
    index at a member whose "parent1_id" is the subject. *)
Definition parent_is_child_of (family : list member) (member_id : Z)
    (m : member) : Prop :=
  exists (p : Z) (q : member),
    PyInt p ∈ member_parents m /\ p <> 0 /\
    id_to_member family !! p = Some q /\
    dict_get (parent1_id q) = PyInt member_id.

(** ** Tree builder *)

(** [str] on an integer: decimal digits, with a leading minus sign for a
    negative number. *)
Definition str_int (z : Z) : string :=
  NilZero.string_of_int (Z.to_int z).

Definition str (v : pyval) : string :=
  match v with
  | PyNone => "None"
  | PyInt z => str_int z
  end.

(** The statements a [Digraph] collects in its body. *)
Inductive stmt : Type :=
  | GraphAttr (key value : string)
  | Node (node_name label shape : string)
  | Edge (tail_name head_name : string).

Record Digraph : Type := MkDigraph {
  format : string;
  body : list stmt
}.

(** [graph.attr(key=value)], [graph.node(name, label=.., shape=..)] and
    [graph.edge(tail, head)] each append one statement. *)
Definition attr (key value : string) (g : Digraph) : Digraph :=
  MkDigraph (format g) (body g ++ [GraphAttr key value]).

Definition node (node_name label shape : string) (g : Digraph) : Digraph :=
  MkDigraph (format g) (body g ++ [Node node_name label shape]).

Definition edge (tail_name head_name : string) (g : Digraph) : Digraph :=
  MkDigraph (format g) (body g ++ [Edge tail_name head_name]).

Definition newline : string := String "010"%char EmptyString.

(** [f'{member["name"]}\n({member.get("anggota", "")})'] *)
Definition node_label (m : member) : string :=
  (name m ++ newline ++ "(" ++ default "" (anggota m) ++ ")")%string.

(** Body of the first loop. *)
Definition add_node (g : Digraph) (m : member) : Digraph :=
  node (str_int (id m)) (node_label m) "box" g.

(** ["parentN_id" in member and member["parentN_id"]] *)
Definition present_and_truthy (field : option pyval) : bool :=
  match field with
  | Some v => truthy v
  | None => false
  end.

(** One guarded [graph.edge(str(member["parentN_id"]), str(member["id"]))]. *)
Definition add_parent_edge (field : option pyval) (m : member) (g : Digraph)
    : Digraph :=
  if present_and_truthy field
  then edge (str (dict_get field)) (str_int (id m)) g
  else g.

(** Body of the second loop. *)
Definition add_edges (g : Digraph) (m : member) : Digraph :=
  add_parent_edge (parent2_id m) m (add_parent_edge (parent1_id m) m g).

(** The graph [generate_family_tree] has built when it calls
    [graph.render]; the rendering to a PNG file is outside the model. *)
Definition generate_family_tree (family : list member) : Digraph :=
  let graph := attr "rankdir" "TB" (MkDigraph "png" []) in
  let graph := foldl add_node graph family in
  foldl add_edges graph family.

Definition is_node (s : stmt) : bool :=
  match s with Node _ _ _ => true | _ => false end.

Definition is_edge (s : stmt) : bool :=
  match s with Edge _ _ => true | _ => false end.

Definition nodes (g : Digraph) : list stmt := List.filter is_node (body g).
Definition edges (g : Digraph) : list stmt := List.filter is_edge (body g).

(** The node statement of a member and the edge statements of its parent
    references that pass the guard, as the loops are meant to leave them. *)
Definition node_stmt (m : member) : stmt :=
  Node (str_int (id m)) (node_label m) "box".

Definition parent_edges (m : member) : list stmt :=
  map (fun v => Edge (str v) (str_int (id m)))
      (List.filter truthy (member_parents m)).

(** A parent reference that is present and not null. *)
Definition non_null (v : pyval) : bool :=
  match v with
  | PyNone => false
  | PyInt _ => true
  end.

(** ** Store and DELETE handler *)

(** Calls made on [db.reference("family")]. *)
Inductive db_event : Type :=
  | DbGet
  | DbSet (value : list member).

(** The remote document under "family" ([None] when nothing is stored) and
    the calls made on it so far. *)
Record world : Type := World {
  family_ref : option (list member);
  calls : list db_event
}.

Definition io (A : Type) : Type := world -> A * world.

Definition io_ret {A : Type} (a : A) : io A := fun w => (a, w).

Definition io_bind {A B : Type} (c : io A) (k : A -> io B) : io B :=
  fun w => let (a, w') := c w in k a w'.

Notation "'let*' x := c 'in' k" := (io_bind c (fun x => k))
  (at level 10, x name, c at level 100, k at level 200, only parsing).

(** [ref.get()] *)
Definition ref_get : io (option (list member)) :=
  fun w => (family_ref w, World (family_ref w) (calls w ++ [DbGet])).

(** [ref.set(value)] *)
Definition ref_set (value : list member) : io unit :=
  fun w => (tt, World (Some value) (calls w ++ [DbSet value])).

(** [load_data()["family"]]: [family_data if family_data else []]; an
    empty list is falsy as well. *)
Definition load_data : io (list member) :=
  let* family_data := ref_get in
  io_ret match family_data with
         | Some (x :: rest) => x :: rest
         | _ => []
         end.

(** [save_data({"family": family})] *)
Definition save_data (family : list member) : io unit :=
  ref_set family.

(** [jsonify({key: text}), status] *)
Record response : Type := Response {
  json_key : string;
  json_text : string;
  status : Z
}.

Definition delete_family_member (member_id : Z) : io response :=
  let* family := load_data in
  let updated_family :=
    List.filter (fun m => negb (id m =? member_id)) family in
  if (length updated_family =? length family)%nat
  then io_ret (Response "error" "Member not found" 404)
  else
    let* _ := save_data updated_family in
    io_ret (Response "message" "Member deleted successfully" 200).

(** ** The other handlers *)

(** [relationships] as the Python dictionary it is: the items in the order
    in which their keys were first written; writing an existing key
    replaces its value in place. *)
Fixpoint dict_set (key : Z) (value : relationship)
    (items : list (Z * relationship)) : list (Z * relationship) :=
  match items with
  | [] => [(key, value)]
  | (k, v) :: rest =>
      if k =? key then (key, value) :: rest
      else (k, v) :: dict_set key value rest
  end.

Definition relate_step_items (index : gmap Z member) (member_id : Z)
    (relationships : list (Z * relationship)) (m : member)
    : list (Z * relationship) :=
  if id m =? member_id then relationships
  else match relate index member_id m with
       | Some r => dict_set (id m) r relationships
       | None => relationships
       end.

(** [calculate_relationship(family, member_id).items()] *)
Definition calculate_relationship_items (family : list member)
    (member_id : Z) : list (Z * relationship) :=
  foldl (relate_step_items (id_to_member family) member_id) [] family.

(** One element of the list [describe_relationship] answers with. *)
Record relationship_entry : Type := RelationshipEntry {
  entry_id : Z;
  entry_name : string;
  entry_relationship : string
}.

(** [next((member["name"] for member in data if member["id"] == related_id),
         "Unknown")] *)
Definition name_of (data : list member) (related_id : Z) : string :=
  match List.find (fun m => id m =? related_id) data with
  | Some m => name m
  | None => "Unknown"
  end.

(** GET /family/relationship/<member_id>: the JSON list and the status. *)
Definition describe_relationship (member_id : Z)
    : io (list relationship_entry * Z) :=
  let* data := load_data in
  let relationships := calculate_relationship_items data member_id in
  match relationships with
  | [] => io_ret ([], 200)
  | _ :: _ =>
      io_ret
        (map (fun item : Z * relationship =>
                RelationshipEntry (fst item) (name_of data (fst item))
                                  (relationship_label (snd item)))
             relationships,
         200)
  end.

(** GET /family: [jsonify(load_data())], the list under the key "family". *)
Definition get_family : io (list member * Z) :=
  let* family := load_data in
  io_ret (family, 200).

(** The JSON body of a POST; each key may be absent. *)
Record post_body : Type := PostBody {
  post_id : option Z;
  post_name : option string;
  post_anggota : option string;
  post_parent1_id : option pyval;
  post_parent2_id : option pyval
}.

Definition required_fields : list string := ["id"; "name"; "anggota"].

(** [field in new_member] for the required fields. *)
Definition field_in (field : string) (new_member : post_body) : bool :=
  if String.eqb field "id" then bool_decide (is_Some (post_id new_member))
  else if String.eqb field "name"
       then bool_decide (is_Some (post_name new_member))
  else if String.eqb field "anggota"
       then bool_decide (is_Some (post_anggota new_member))
  else false.

(** The first required field the body lacks, in the order of the list. *)
Definition first_missing (new_member : post_body) : option string :=
  List.find (fun field => negb (field_in field new_member)) required_fields.

Definition field_required (field : string) : response :=
  Response "error" ("Field '" ++ field ++ "' is required") 400.

(** POST /family.  The loop over [required_fields] is written out in the
    order of the list; [setdefault] stores [None] under a parent key the
    body lacks; the member is appended and the whole list saved. *)
Definition add_family_member (new_member : post_body) : io response :=
  let* family := load_data in
  match post_id new_member with
  | None => io_ret (field_required "id")
  | Some i =>
  match post_name new_member with
  | None => io_ret (field_required "name")
  | Some n =>
  match post_anggota new_member with
  | None => io_ret (field_required "anggota")
  | Some a =>
      let member :=
        Member i n (Some a)
               (Some (dict_get (post_parent1_id new_member)))
               (Some (dict_get (post_parent2_id new_member))) in
      let* _ := save_data (family ++ [member]) in
      io_ret (Response "message" "Member added successfully" 201)
  end end end.

(** The JSON body of a PUT; each key may be absent. *)
Record put_body : Type := PutBody {
  put_name : option string;
  put_anggota : option string;
  put_parent1_id : option pyval;
  put_parent2_id : option pyval
}.

Inductive exn : Type :=
  | KeyError (key : string).

(** A handler either returns its answer or lets an exception escape. *)
Inductive outcome (A : Type) : Type :=
  | Returned (a : A)
  | Raised (e : exn).
Arguments Returned {A} a.
Arguments Raised {A} e.

(** [member[key]]: an absent key raises [KeyError]. *)
Definition subscript {A : Type} (key : string) (field : option A) : exn + A :=
  match field with
  | Some v => inr v
  | None => inl (KeyError key)
  end.

(** The four assignments of the PUT handler on the member found.  The
    default [member[key]] of each [updated_data.get(key, member[key])] is
    evaluated before the call, whether the body has the key or not. *)
Definition update_member (updated_data : put_body) (m : member)
    : exn + member :=
  let new_name := default (name m) (put_name updated_data) in
  match subscript "anggota" (anggota m) with
  | inl e => inl e
  | inr old_anggota =>
  match subscript "parent1_id" (parent1_id m) with
  | inl e => inl e
  | inr old_parent1 =>
  match subscript "parent2_id" (parent2_id m) with
  | inl e => inl e
  | inr old_parent2 =>
      inr (Member (id m) new_name
             (Some (default old_anggota (put_anggota updated_data)))
             (Some (default old_parent1 (put_parent1_id updated_data)))
             (Some (default old_parent2 (put_parent2_id updated_data))))
  end end end.

(** [for member in data["family"]]: the first member with the id is
    updated in place and the loop is left; [None] when the loop runs to
    its end. *)
Fixpoint update_loop (member_id : Z) (updated_data : put_body)
    (family : list member) : option (exn + list member) :=
  match family with
  | [] => None
  | m :: rest =>
      if id m =? member_id then
        match update_member updated_data m with
        | inl e => Some (inl e)
        | inr m' => Some (inr (m' :: rest))
        end
      else
        match update_loop member_id updated_data rest with
        | Some (inr rest') => Some (inr (m :: rest'))
        | Some (inl e) => Some (inl e)
        | None => None
        end
  end.

(** PUT /family/<member_id> *)
Definition update_family_member (member_id : Z) (updated_data : put_body)
    : io (outcome response) :=
  let* family := load_data in
  match update_loop member_id updated_data family with
  | Some (inr updated_family) =>
      let* _ := save_data updated_family in
      io_ret (Returned (Response "message" "Member updated successfully" 200))
  | Some (inl e) => io_ret (Raised e)
  | None => io_ret (Returned (Response "error" "Member not found" 404))
  end.

(** ** Example data *)

(** Members as the scenarios write them. *)
Definition person (i : Z) (n : string) (p1 p2 : option pyval) : member :=
  Member i n (Some "G"%string) p1 p2.

Definition scenario_A : list member :=
  [person 1 "A" None None; person 2 "B" (Some (PyInt 1)) None].

Definition scenario_B : list member :=
  [person 1 "A" None None; person 2 "B" (Some (PyInt 1)) None;
   person 3 "C" (Some (PyInt 2)) None].

Definition scenario_C : list member :=
  [person 1 "A" None None; person 2 "B" (Some (PyInt 1)) None;
   person 3 "C" (Some (PyInt 1)) None].

(** Three members, of whom only member 2 has a parent. *)
Definition two_roots : list member :=
  [person 1 "A" None None; person 2 "B" (Some (PyInt 1)) None;
   person 3 "C" None None].

(** A member whose parent is absent from the list. *)
Definition dangling : list member :=
  [person 2 "B" (Some (PyInt 1)) None].

(** Two members with id 1, a member whose parent is 1, and the subject 9. *)
Definition twice_one : list member :=
  [person 1 "first" (Some (PyInt 9)) None;
   person 1 "second" (Some (PyInt 5)) None;
   person 2 "C" (Some (PyInt 1)) None;
   person 9 "S" (Some (PyInt 100)) None].

(** Two members with id 5: a child of the subject 1, and a child of the
    subject's sibling 7. *)
Definition twice_five : list member :=
  [person 1 "S" (Some (PyInt 9)) None;
   person 7 "U" (Some (PyInt 9)) None;
   person 5 "X" (Some (PyInt 1)) None;
   person 5 "Y" (Some (PyInt 7)) None].

(** A member with id 0, child of the subject 7, and its own child 5. *)
Definition zero_parent : list member :=
  [person 0 "Z" (Some (PyInt 7)) None;
   person 5 "X" (Some (PyInt 0)) None].

(** Two members with id 5, the first a grandchild of the subject 7. *)
Definition twice_five_grand : list member :=
  [person 5 "X" (Some (PyInt 2)) None;
   person 5 "Y" None None;
   person 2 "P" (Some (PyInt 7)) None].

(** Member 3 descends from the subject 1 through the "parent2_id" of its
    parent 2. *)
Definition through_parent2 : list member :=
  [person 1 "A" None None; person 2 "B" None (Some (PyInt 1));
   person 3 "C" (Some (PyInt 2)) None].

(** A single member whose first parent is the id 0. *)
Definition child_of_zero : list member :=
  [person 1 "A" (Some (PyInt 0)) None].

(** A store holding two members with id 5 around a member with id 6. *)
Definition stored_twice_five : world :=
  World (Some [person 5 "X" None None; person 6 "M" None None;
               person 5 "Y" None None]) [].

(** ** Tactics for concrete lists *)

(** Membership of a written-out member in a written-out list. *)
Ltac member_of_list :=
  repeat first [apply list_elem_of_here | apply list_elem_of_further].

(** [sole_bearer] on a written-out list: every other member differs
    already by its id. *)
Ltac sole_in_list :=
  repeat constructor; simpl; intros; (lia || reflexivity).

(** ** Checks on the scenarios *)

Example scenario_A_child :
  calculate_relationship scenario_A 1 = {[ 2 := Anak ]}.
Proof. reflexivity. Qed.

Example scenario_B_grandchild :
  calculate_relationship scenario_B 1 = <[ 3 := Cucu ]> {[ 2 := Anak ]}.
Proof. vm_compute. reflexivity. Qed.

(** ** The index *)

Lemma id_to_member_snoc (family : list member) (m : member) :
  id_to_member (family ++ [m]) = <[id m := m]> (id_to_member family).
Proof. unfold id_to_member. by rewrite foldl_app. Qed.

(** The index holds, under every id, the last member of the list that
    carries it. *)
Lemma id_to_member_lookup (family : list member) (i : Z) :
  id_to_member family !! i = last (filter (fun m => id m = i) family).
Proof.
  induction family as [|m family IH] using rev_ind; [done|].
  rewrite id_to_member_snoc, filter_app, filter_cons, filter_nil.
  destruct (decide (id m = i)) as [->|Hne].
  - by rewrite lookup_insert_eq, last_snoc.
  - by rewrite lookup_insert_ne, app_nil_r.
Qed.

Lemma id_to_member_elem (family : list member) (i : Z) (q : member) :
  id_to_member family !! i = Some q -> q ∈ family /\ id q = i.
Proof.
  rewrite id_to_member_lookup. intros Hlast.
  apply last_Some_elem_of in Hlast.
  by apply list_elem_of_filter in Hlast as [? ?].
Qed.

Lemma id_to_member_unique (family : list member) (m : member) :
  m ∈ family -> sole_bearer family m ->
  id_to_member family !! id m = Some m.
Proof.
  intros Hin Huniq.
  destruct (id_to_member family !! id m) as [q|] eqn:Hq.
  - apply id_to_member_elem in Hq as [Hq1 Hq2]. f_equal.
    by apply (proj1 (Forall_forall _ _) Huniq).
  - rewrite id_to_member_lookup in Hq. apply last_None in Hq.
    assert (m ∈ filter (fun m' => id m' = id m) family) as Hm
      by (by apply list_elem_of_filter).
    rewrite Hq in Hm. by apply elem_of_nil in Hm.
Qed.

(** ** The result of the loop *)

Section Loop.
Variable index : gmap Z member.
Variable member_id : Z.

Lemma writes_for_snoc (i : Z) (family : list member) (m : member) :
  writes_for index member_id i (family ++ [m]) =
  writes_for index member_id i family ++
  (if decide (id m = i) then option_list (written index member_id m) else []).
Proof.
  unfold writes_for. rewrite omap_app. f_equal. simpl.
  destruct (decide (id m = i)); [|done].
  by destruct (written index member_id m).
Qed.

(** Under every key the loop leaves the last label it wrote there, and
    what was there before when it wrote none. *)
Lemma relate_fold_lookup (family : list member)
    (relationships : gmap Z relationship) (i : Z) :
  foldl (relate_step index member_id) relationships family !! i =
  match last (writes_for index member_id i family) with
  | Some r => Some r
  | None => relationships !! i
  end.
Proof.
  induction family as [|m family IH] using rev_ind; [done|].
  rewrite foldl_app, writes_for_snoc. simpl.
  unfold relate_step at 1, written.
  destruct (id m =? member_id) eqn:Hsubj.
  { destruct (decide (id m = i)); simpl; by rewrite app_nil_r. }
  destruct (relate index member_id m) as [r|]; simpl.
  - destruct (decide (id m = i)) as [->|Hne].
    + by rewrite lookup_insert_eq, last_snoc.
    + by rewrite lookup_insert_ne, app_nil_r.
  - destruct (decide (id m = i)); by rewrite app_nil_r.
Qed.

Lemma writes_for_elem (i : Z) (family : list member) (r : relationship) :
  r ∈ writes_for index member_id i family ->
  exists m, m ∈ family /\ id m = i /\ id m <> member_id /\
            relate index member_id m = Some r.
Proof.
  unfold writes_for. rewrite list_elem_of_omap.
  intros (m & Hin & Hw). exists m.
  destruct (decide (id m = i)); [|done].
  unfold written in Hw. destruct (id m =? member_id) eqn:Hsubj; [done|].
  apply Z.eqb_neq in Hsubj. done.
Qed.

(** When [m] alone carries its id, the only label written under that id
    is the one of [m]. *)
Lemma writes_for_sole (family : list member) (m : member) :
  m ∈ family -> sole_bearer family m ->
  last (writes_for index member_id (id m) family) = written index member_id m.
Proof.
  intros Hin Hsole.
  assert (forall r, r ∈ writes_for index member_id (id m) family ->
                    written index member_id m = Some r) as Hall.
  { intros r (m' & Hin' & Hid & Hne & Hrel)%writes_for_elem.
    apply (proj1 (Forall_forall _ _) Hsole) in Hid as ->; [|done].
    unfold written. by apply Z.eqb_neq in Hne as ->. }
  destruct (last (writes_for index member_id (id m) family)) as [r|] eqn:Hl.
  - symmetry. apply Hall. by apply last_Some_elem_of.
  - apply last_None in Hl.
    destruct (written index member_id m) as [r|] eqn:Hw; [|done].
    assert (r ∈ writes_for index member_id (id m) family) as Hr.
    { unfold writes_for. apply list_elem_of_omap. exists m.
      split; [done|]. by rewrite decide_True. }
    rewrite Hl in Hr. by apply elem_of_nil in Hr.
Qed.
End Loop.

Lemma calculate_relationship_lookup (family : list member) (member_id i : Z) :
  calculate_relationship family member_id !! i =
  last (writes_for (id_to_member family) member_id i family).
Proof.
  unfold calculate_relationship. rewrite relate_fold_lookup.
  by destruct (last _).
Qed.

Lemma calculate_relationship_sole (family : list member) (member_id : Z)
    (m : member) :
  m ∈ family -> sole_bearer family m -> id m <> member_id ->
  calculate_relationship family member_id !! id m =
  relate (id_to_member family) member_id m.
Proof.
  intros Hin Hsole Hne.
  rewrite calculate_relationship_lookup, writes_for_sole by done.
  unfold written. by apply Z.eqb_neq in Hne as ->.
Qed.

Lemma calculate_relationship_origin (family : list member) (member_id i : Z)
    (r : relationship) :
  calculate_relationship family member_id !! i = Some r ->
  exists m, m ∈ family /\ id m = i /\ id m <> member_id /\
            relate (id_to_member family) member_id m = Some r.
Proof.
  rewrite calculate_relationship_lookup. intros Hl.
  apply last_Some_elem_of in Hl. by apply writes_for_elem in Hl.
Qed.

(** ** Reading the rules *)

Lemma py_eq_spec (a b : pyval) : py_eq a b = true <-> a = b.
Proof.
  destruct a as [|x], b as [|y]; simpl; try (split; [discriminate|congruence]).
  - done.
  - rewrite Z.eqb_eq. split; congruence.
Qed.

Lemma truthy_spec (v : pyval) :
  truthy v = true <-> exists z, v = PyInt z /\ z <> 0.
Proof.
  destruct v as [|z]; simpl.
  - split; [discriminate|]. by intros (z & ? & _).
  - rewrite negb_true_iff, Z.eqb_neq. split.
    + intros Hz. by exists z.
    + by intros (z' & [= ->] & Hz).
Qed.

Lemma rule_anak_false (member_id : Z) (m : member) :
  rule_anak member_id m = false <->
  dict_get (parent1_id m) <> PyInt member_id /\
  dict_get (parent2_id m) <> PyInt member_id.
Proof.
  unfold rule_anak, py_in, member_parents. simpl.
  rewrite orb_false_r, orb_false_iff.
  rewrite <- !not_true_iff_false, !py_eq_spec. done.
Qed.

Lemma rule_cucu_spec (family : list member) (member_id : Z) (m : member) :
  rule_cucu (id_to_member family) member_id m = true <->
  parent_is_child_of family member_id m.
Proof.
  unfold rule_cucu, parent_is_child_of.
  rewrite existsb_exists. split.
  - intros (v & Hv & Heq). apply filter_In in Hv as [Hv Ht].
    apply truthy_spec in Ht as (p & -> & Hp).
    apply py_eq_spec in Heq. simpl in Heq.
    destruct (id_to_member family !! p) as [q|] eqn:Hq; [|done].
    exists p, q. by rewrite list_elem_of_In.
  - intros (p & q & Hin & Hp & Hq & Hsubj). exists (PyInt p). split.
    + apply filter_In. split; [by apply list_elem_of_In|].
      apply truthy_spec. by exists p.
    + apply py_eq_spec. simpl. by rewrite Hq.
Qed.

Lemma relate_cucu (index : gmap Z member) (member_id : Z) (m : member) :
  relate index member_id m = Some Cucu <->
  rule_anak member_id m = false /\ rule_cucu index member_id m = true.
Proof.
  unfold relate.
  destruct (rule_anak member_id m), (rule_cucu index member_id m),
    (rule_keponakan index member_id m), (rule_saudara index member_id m);
    split; (by intros [? ?]) || done.
Qed.

(** ** Relationship engine: the claims *)

(** C1.  On the list of scenario C, with subject 2, the engine labels
    nobody: member 3, who has the same first parent as the subject, is not
    labelled "Saudara", and the result is the empty mapping, not the
    mapping with the single entry 3 to "Saudara". *)
Theorem C1_scenario_C_labels_nobody :
  calculate_relationship scenario_C 2 = ∅ /\
  calculate_relationship scenario_C 2 <> {[ 3 := Saudara ]} /\
  rule_saudara (id_to_member scenario_C) 2 (person 3 "C" (Some (PyInt 1)) None)
  = false.
Proof.
  split; [reflexivity|]. split; [|reflexivity].
  intros Heq.
  assert (calculate_relationship scenario_C 2 !! 3 = Some Saudara) as Hl
    by (by rewrite Heq).
  vm_compute in Hl. discriminate.
Qed.

(** C2.  On the list [two_roots] with subject 3, member 2 is labelled
    "Saudara" although neither the member found for its "parent1_id" nor
    the subject has a "parent1_id": the comparison of the two absent
    values succeeds. *)
Theorem C2_absent_parents_match :
  calculate_relationship two_roots 3 !! 2 = Some Saudara /\
  get_parent1 (index_get (id_to_member two_roots) (PyInt 1)) = PyNone /\
  get_parent1 (index_get (id_to_member two_roots) (PyInt 3)) = PyNone.
Proof. repeat split; reflexivity. Qed.

(** C3, as stated, fails: the subject 1 is the id of no member of
    [dangling], yet member 2, whose "parent1_id" is 1, is labelled. *)
Lemma C3_counterexample :
  Forall (fun m => id m <> 1) dangling /\
  calculate_relationship dangling 1 <> ∅.
Proof.
  split.
  - repeat constructor. simpl. lia.
  - intros Heq.
    assert (calculate_relationship dangling 1 !! 2 = None) as Hl
      by (by rewrite Heq).
    vm_compute in Hl. discriminate.
Qed.

(** C3, amended.  When the subject is the id of no member and no member
    names it as "parent1_id" or "parent2_id", the index has no entry for
    the subject and the result holds no "Anak", no "Cucu" and no
    "Keponakan" label. *)
Theorem C3_unknown_subject (family : list member) (member_id : Z) :
  Forall (fun m => id m <> member_id) family ->
  Forall (fun m => dict_get (parent1_id m) <> PyInt member_id /\
                   dict_get (parent2_id m) <> PyInt member_id) family ->
  id_to_member family !! member_id = None /\
  forall i,
    calculate_relationship family member_id !! i <> Some Anak /\
    calculate_relationship family member_id !! i <> Some Cucu /\
    calculate_relationship family member_id !! i <> Some Keponakan.
Proof.
  intros Hunknown Hrefs. split.
  { destruct (id_to_member family !! member_id) as [q|] eqn:Hq; [|done].
    apply id_to_member_elem in Hq as [Hq Hid].
    by apply (proj1 (Forall_forall _ _) Hunknown) in Hq. }
  intros i.
  assert (forall p q, id_to_member family !! p = Some q ->
            dict_get (parent1_id q) <> PyInt member_id /\
            dict_get (parent2_id q) <> PyInt member_id) as Hindex.
  { intros p q [Hq _]%id_to_member_elem.
    by apply (proj1 (Forall_forall _ _) Hrefs). }
  assert (forall v,
            get_parent1 (index_get (id_to_member family) v) <> PyInt member_id /\
            get_parent2 (index_get (id_to_member family) v) <> PyInt member_id)
    as Hget.
  { intros [|p]; simpl; [done|].
    destruct (id_to_member family !! p) as [q|] eqn:Hq; [|done].
    by apply Hindex in Hq. }
  assert (forall m, m ∈ family ->
            rule_anak member_id m = false /\
            rule_cucu (id_to_member family) member_id m = false /\
            rule_keponakan (id_to_member family) member_id m = false)
    as Hrules.
  { intros m Hm. split; [|split].
    - apply rule_anak_false. by apply (proj1 (Forall_forall _ _) Hrefs).
    - apply not_true_iff_false. rewrite rule_cucu_spec.
      intros (p & q & _ & _ & Hq & Hsubj).
      by apply Hindex in Hq as [? _].
    - unfold rule_keponakan, py_in. simpl.
      rewrite orb_false_r. apply orb_false_iff.
      rewrite <- !not_true_iff_false, !py_eq_spec. apply Hget. }
  repeat split; intros (m & Hm & _ & _ & Hrel)%calculate_relationship_origin;
    apply Hrules in Hm as (Ha & Hc & Hk);
    unfold relate in Hrel; rewrite Ha, Hc, Hk in Hrel;
    by destruct (rule_saudara _ _ _).
Qed.

Lemma C3_unknown_subject_witness :
  id_to_member scenario_A !! 7 = None /\
  calculate_relationship scenario_A 7 !! 2 <> Some Anak /\
  calculate_relationship scenario_A 7 !! 2 <> Some Cucu /\
  calculate_relationship scenario_A 7 !! 2 <> Some Keponakan.
Proof.
  assert (Forall (fun m => id m <> 7) scenario_A) as Hunknown
    by (repeat constructor; simpl; lia).
  assert (Forall (fun m => dict_get (parent1_id m) <> PyInt 7 /\
                           dict_get (parent2_id m) <> PyInt 7) scenario_A)
    as Hrefs by (repeat constructor; simpl; discriminate).
  split.
  - exact (proj1 (C3_unknown_subject scenario_A 7 Hunknown Hrefs)).
  - exact (proj2 (C3_unknown_subject scenario_A 7 Hunknown Hrefs) 2).
Defined.

(** C4, as stated, fails: in [twice_one] the id 1 is carried by two
    members and the index holds the second, not the first; the parent of
    member 2 therefore resolves to the second, whose "parent1_id" is not
    the subject 9, and member 2 is not labelled. *)
Lemma C4_counterexample :
  id_to_member twice_one !! 1 <> head (filter (fun m => id m = 1) twice_one) /\
  head (filter (fun m => id m = 1) twice_one)
  = Some (person 1 "first" (Some (PyInt 9)) None) /\
  calculate_relationship twice_one 9 !! 2 = None.
Proof. split; [|split]; [|reflexivity|reflexivity]. vm_compute. discriminate. Qed.

(** C4, amended.  The index maps every id to the last member of the list
    that carries it, and this is the member every parent lookup of the
    rules receives. *)
Theorem C4_index_last_occurrence (family : list member) (i : Z) :
  id_to_member family !! i = last (filter (fun m => id m = i) family) /\
  index_get (id_to_member family) (PyInt i)
  = last (filter (fun m => id m = i) family).
Proof. split; apply id_to_member_lookup. Qed.

(** C5, as stated, fails: in [twice_five] the member "X" (id 5) is a
    child of the subject 1, so its first matching rule is "Anak", but the
    label the result holds for its id is "Saudara", written afterwards
    for the other member with id 5. *)
Lemma C5_counterexample :
  person 5 "X" (Some (PyInt 1)) None ∈ twice_five /\
  id (person 5 "X" (Some (PyInt 1)) None) <> 1 /\
  relate (id_to_member twice_five) 1 (person 5 "X" (Some (PyInt 1)) None)
  = Some Anak /\
  calculate_relationship twice_five 1 !! 5 = Some Saudara.
Proof.
  split; [|split; [|split]]; [|simpl; lia|reflexivity|reflexivity].
  unfold twice_five. member_of_list.
Qed.

(** C5, amended.  For a member [m] other than the subject whose id no
    other member carries, the result holds under the id of [m] the label
    of the first rule that matches, in the order "Anak", "Cucu",
    "Keponakan", "Saudara", and holds nothing when no rule matches. *)
Theorem C5_first_matching_rule (family : list member) (member_id : Z)
    (m : member) :
  m ∈ family -> id m <> member_id -> sole_bearer family m ->
  let index := id_to_member family in
  let label := calculate_relationship family member_id !! id m in
  (rule_anak member_id m = true -> label = Some Anak) /\
  (rule_anak member_id m = false ->
   rule_cucu index member_id m = true -> label = Some Cucu) /\
  (rule_anak member_id m = false ->
   rule_cucu index member_id m = false ->
   rule_keponakan index member_id m = true -> label = Some Keponakan) /\
  (rule_anak member_id m = false ->
   rule_cucu index member_id m = false ->
   rule_keponakan index member_id m = false ->
   rule_saudara index member_id m = true -> label = Some Saudara) /\
  (rule_anak member_id m = false ->
   rule_cucu index member_id m = false ->
   rule_keponakan index member_id m = false ->
   rule_saudara index member_id m = false -> label = None).
Proof.
  intros Hin Hne Hsole index label. subst label index.
  rewrite calculate_relationship_sole by done. unfold relate.
  repeat split; intros; repeat match goal with H : _ = _ |- _ => rewrite H end;
    reflexivity.
Qed.

Lemma C5_first_matching_rule_witness :
  calculate_relationship scenario_B 1 !! 3 = Some Cucu.
Proof.
  assert (person 3 "C" (Some (PyInt 2)) None ∈ scenario_B) as Hin.
  { unfold scenario_B. member_of_list. }
  assert (id (person 3 "C" (Some (PyInt 2)) None) <> 1) as Hne
    by (simpl; lia).
  assert (sole_bearer scenario_B (person 3 "C" (Some (PyInt 2)) None)) as Hsole.
  { sole_in_list. }
  exact (proj1 (proj2 (C5_first_matching_rule scenario_B 1 _ Hin Hne Hsole))
           eq_refl eq_refl).
Defined.

(** The "Cucu" rule reads the index only through the "parent1_id" of the
    members it finds: two indexes that agree on those give the same
    answer, whatever the "parent2_id" fields are. *)
Lemma rule_cucu_ignores_parent2 (index index' : gmap Z member)
    (member_id : Z) (m : member) :
  (forall p, get_parent1 (index !! p) = get_parent1 (index' !! p)) ->
  rule_cucu index member_id m = rule_cucu index' member_id m.
Proof.
  intros Hsame. unfold rule_cucu.
  induction (List.filter truthy (member_parents m)) as [|v l IH]; simpl; [done|].
  rewrite IH. f_equal. destruct v as [|p]; simpl; [done|]. by rewrite Hsame.
Qed.

Example through_parent2_not_cucu :
  calculate_relationship through_parent2 1
  = <[ 3 := Keponakan ]> {[ 2 := Anak ]}.
Proof. vm_compute. reflexivity. Qed.

(** C6, as stated, fails in two ways.  In [zero_parent] member 5 is not a
    child of the subject 7 and its parent 0 is found in the index at a
    member whose "parent1_id" is 7, yet it is labelled "Keponakan", since
    the parent id 0 is filtered out of the "Cucu" rule.  In
    [twice_five_grand] the member "Y" has no parent at all, yet the result
    holds "Cucu" under its id, written for the other member with id 5. *)
Lemma C6_counterexample :
  (person 5 "X" (Some (PyInt 0)) None ∈ zero_parent /\
   rule_anak 7 (person 5 "X" (Some (PyInt 0)) None) = false /\
   (exists p q,
      PyInt p ∈ member_parents (person 5 "X" (Some (PyInt 0)) None) /\
      id_to_member zero_parent !! p = Some q /\
      dict_get (parent1_id q) = PyInt 7) /\
   calculate_relationship zero_parent 7 !! 5 = Some Keponakan) /\
  (person 5 "Y" None None ∈ twice_five_grand /\
   rule_anak 7 (person 5 "Y" None None) = false /\
   member_parents (person 5 "Y" None None) = [PyNone; PyNone] /\
   calculate_relationship twice_five_grand 7 !! 5 = Some Cucu).
Proof.
  split.
  - split; [|split; [|split]]; [|reflexivity| |reflexivity].
    + unfold zero_parent. member_of_list.
    + exists 0, (person 0 "Z" (Some (PyInt 7)) None).
      split; [apply list_elem_of_here|]. split; reflexivity.
  - split; [|repeat split; reflexivity].
    unfold twice_five_grand. member_of_list.
Qed.

(** C6, amended.  For a member [m] other than the subject whose id no
    other member carries and whom the "Anak" rule does not match, the
    result holds "Cucu" under the id of [m] exactly when one of the two
    parent ids of [m], being an integer other than 0, is found in the
    index at a member whose "parent1_id" is the subject; the "parent2_id"
    of that member plays no part. *)
Theorem C6_grandchild_rule (family : list member) (member_id : Z)
    (m : member) :
  m ∈ family -> id m <> member_id -> sole_bearer family m ->
  rule_anak member_id m = false ->
  calculate_relationship family member_id !! id m = Some Cucu <->
  exists (p : Z) (q : member),
    PyInt p ∈ member_parents m /\ p <> 0 /\
    id_to_member family !! p = Some q /\
    dict_get (parent1_id q) = PyInt member_id.
Proof.
  intros Hin Hne Hsole Hanak.
  rewrite calculate_relationship_sole by done.
  rewrite relate_cucu, rule_cucu_spec. unfold parent_is_child_of.
  split; [by intros [_ ?]|done].
Qed.

Lemma C6_grandchild_rule_witness :
  calculate_relationship scenario_B 1 !! 3 = Some Cucu <->
  exists (p : Z) (q : member),
    PyInt p ∈ member_parents (person 3 "C" (Some (PyInt 2)) None) /\ p <> 0 /\
    id_to_member scenario_B !! p = Some q /\
    dict_get (parent1_id q) = PyInt 1.
Proof.
  apply (C6_grandchild_rule scenario_B 1 (person 3 "C" (Some (PyInt 2)) None)).
  - unfold scenario_B. member_of_list.
  - simpl; lia.
  - sole_in_list.
  - reflexivity.
Defined.

(** ** Tree builder *)

Lemma str_int_inj (x y : Z) : str_int x = str_int y -> x = y.
Proof.
  assert (forall z, NilZero.int_of_string (str_int z) = Some (Z.to_int z))
    as Hparse.
  { intros z. apply NilZero.isi; destruct z as [|p|p]; simpl; try discriminate;
      intros [= Hnil]; by apply Unsigned.to_uint_nonnil in Hnil. }
  intros Heq.
  assert (Some (Z.to_int x) = Some (Z.to_int y)) as [= Hxy]
    by (by rewrite <- !Hparse, Heq).
  by rewrite <- (DecimalZ.of_to x), <- (DecimalZ.of_to y), Hxy.
Qed.

Lemma body_add_nodes (g : Digraph) (family : list member) :
  body (foldl add_node g family) = body g ++ map node_stmt family.
Proof.
  revert g. induction family as [|m family IH]; intros g; simpl.
  - by rewrite app_nil_r.
  - rewrite IH. simpl. by rewrite <- app_assoc.
Qed.

Lemma body_add_parent_edge (field : option pyval) (m : member) (g : Digraph) :
  body (add_parent_edge field m g) =
  body g ++ map (fun v => Edge (str v) (str_int (id m)))
                (List.filter truthy [dict_get field]).
Proof.
  unfold add_parent_edge. destruct field as [v|]; simpl.
  - destruct (truthy v); simpl; [done|by rewrite app_nil_r].
  - by rewrite app_nil_r.
Qed.

Lemma body_add_edges (g : Digraph) (family : list member) :
  body (foldl add_edges g family) = body g ++ flat_map parent_edges family.
Proof.
  revert g. induction family as [|m family IH]; intros g; simpl.
  - by rewrite app_nil_r.
  - rewrite IH. unfold add_edges. rewrite !body_add_parent_edge.
    rewrite <- !app_assoc. f_equal. rewrite app_assoc. f_equal.
    unfold parent_edges, member_parents. simpl.
    destruct (truthy (dict_get (parent1_id m))),
      (truthy (dict_get (parent2_id m))); done.
Qed.

Lemma body_generate_family_tree (family : list member) :
  body (generate_family_tree family) =
  GraphAttr "rankdir" "TB" :: map node_stmt family
    ++ flat_map parent_edges family.
Proof.
  unfold generate_family_tree.
  by rewrite body_add_edges, body_add_nodes, <- app_assoc.
Qed.

Lemma filter_is_node_nodes (family : list member) :
  List.filter is_node (map node_stmt family) = map node_stmt family.
Proof. induction family as [|m family IH]; simpl; by f_equal. Qed.

Lemma filter_is_edge_nodes (family : list member) :
  List.filter is_edge (map node_stmt family) = [].
Proof. induction family as [|m family IH]; simpl; done. Qed.

Lemma parent_edges_shape (m : member) :
  Forall (fun s => is_edge s = true /\ is_node s = false) (parent_edges m).
Proof.
  unfold parent_edges. apply Forall_forall. intros s Hs.
  apply list_elem_of_fmap in Hs as (v & -> & _). done.
Qed.

Lemma filter_edges (family : list member) :
  List.filter is_edge (flat_map parent_edges family)
  = flat_map parent_edges family /\
  List.filter is_node (flat_map parent_edges family) = [].
Proof.
  induction family as [|m family [IHe IHn]]; simpl; [done|].
  rewrite !List.filter_app, IHe, IHn.
  pose proof (parent_edges_shape m) as Hshape.
  induction Hshape as [|s l [He Hn] _ [IH1 IH2]]; simpl; [done|].
  rewrite He, Hn. split.
  - simpl. f_equal. exact IH1.
  - by rewrite app_nil_r in IH2 |- *.
Qed.

Lemma length_parent_edges (m : member) : (length (parent_edges m) <= 2)%nat.
Proof.
  unfold parent_edges, member_parents. rewrite length_map. simpl.
  destruct (truthy _), (truthy _); simpl; lia.
Qed.

Lemma length_flat_parent_edges (family : list member) :
  length (flat_map parent_edges family)
  = length (List.filter truthy (flat_map member_parents family)).
Proof.
  induction family as [|m family IH]; simpl; [done|].
  rewrite length_app, IH. unfold parent_edges. rewrite length_map.
  unfold member_parents. simpl.
  destruct (truthy (dict_get (parent1_id m))),
    (truthy (dict_get (parent2_id m))); simpl; lia.
Qed.

Lemma nodes_generate_family_tree (family : list member) :
  nodes (generate_family_tree family) = map node_stmt family.
Proof.
  unfold nodes. rewrite body_generate_family_tree. simpl.
  rewrite List.filter_app, filter_is_node_nodes.
  rewrite (proj2 (filter_edges family)). by rewrite app_nil_r.
Qed.

Lemma edges_generate_family_tree (family : list member) :
  edges (generate_family_tree family) = flat_map parent_edges family.
Proof.
  unfold edges. rewrite body_generate_family_tree. simpl.
  rewrite List.filter_app, filter_is_edge_nodes.
  by rewrite (proj1 (filter_edges family)).
Qed.

(** C7, as stated, fails: [child_of_zero] holds one parent reference that
    is not null, the integer 0, and the graph has no edge. *)
Lemma C7_counterexample :
  flat_map (fun m => List.filter non_null (member_parents m)) child_of_zero
  = [PyInt 0] /\
  edges (generate_family_tree child_of_zero) = [].
Proof. split; reflexivity. Qed.

(** C7, amended.  The graph holds exactly one node per member, in list
    order, named by the id and labelled with the name, a line break and
    the group in parentheses; and exactly one edge from the parent to the
    member per parent reference that is neither null nor 0, "parent1_id"
    and "parent2_id" apart; so there are at most twice as many edges as
    members. *)
Theorem C7_graph_nodes_and_edges (family : list member) :
  nodes (generate_family_tree family)
  = map (fun m => Node (str_int (id m))
                       (name m ++ newline ++ "(" ++ default "" (anggota m) ++ ")")
                       "box") family /\
  edges (generate_family_tree family)
  = flat_map (fun m => map (fun v => Edge (str v) (str_int (id m)))
                           (List.filter truthy (member_parents m))) family /\
  length (nodes (generate_family_tree family)) = length family /\
  length (edges (generate_family_tree family))
  = length (List.filter truthy (flat_map member_parents family)) /\
  (length (edges (generate_family_tree family)) <= 2 * length family)%nat.
Proof.
  rewrite nodes_generate_family_tree, edges_generate_family_tree.
  split; [done|]. split; [done|]. split; [by rewrite length_map|].
  split; [apply length_flat_parent_edges|].
  induction family as [|m family IH]; simpl; [lia|].
  rewrite length_app. pose proof (length_parent_edges m). lia.
Qed.

Lemma edge_tail_truthy (family : list member) (t h : string) :
  Edge t h ∈ body (generate_family_tree family) ->
  exists z, z <> 0 /\ t = str_int z.
Proof.
  rewrite body_generate_family_tree.
  intros Hin. apply elem_of_cons in Hin as [Hin|Hin]; [done|].
  apply elem_of_app in Hin as [Hin|Hin].
  - apply list_elem_of_fmap in Hin as (m & Hm & _). done.
  - apply list_elem_of_In, in_flat_map in Hin as (m & _ & Hin).
    unfold parent_edges in Hin. apply in_map_iff in Hin as (v & [= <- _] & Hv).
    apply filter_In in Hv as [_ Hv].
    apply truthy_spec in Hv as (z & -> & Hz). by exists z.
Qed.

(** C10.  A member whose "parent1_id" or "parent2_id" is the integer 0
    gets no edge from node 0: the graph built for any list holding such a
    member has no edge from "0" to the member's node, and the iteration of
    the edge loop for that member appends at most the one edge of its
    other parent. *)
Theorem C10_no_edge_from_zero (family : list member) (m : member) :
  m ∈ family ->
  parent1_id m = Some (PyInt 0) \/ parent2_id m = Some (PyInt 0) ->
  (Edge (str (PyInt 0)) (str_int (id m)) ∉ body (generate_family_tree family))
  /\ (Edge (str (PyInt 0)) (str_int (id m))
      ∉ edges (generate_family_tree family))
  /\ (forall g, length (body (add_edges g m)) <= S (length (body g)))%nat.
Proof.
  intros _ Hzero.
  assert (Edge (str (PyInt 0)) (str_int (id m))
          ∉ body (generate_family_tree family)) as Hbody.
  { intros (z & Hz & Heq)%edge_tail_truthy.
    simpl in Heq. by apply str_int_inj in Heq. }
  split; [done|]. split.
  - intros Hin. apply Hbody. unfold edges in Hin.
    apply list_elem_of_In, filter_In in Hin as [Hin _].
    by apply list_elem_of_In.
  - intros g. unfold add_edges. rewrite !body_add_parent_edge.
    rewrite !length_app, !length_map.
    destruct Hzero as [-> | ->]; simpl;
      repeat match goal with |- context [truthy ?v] => destruct (truthy v) end;
      simpl; lia.
Qed.

Lemma C10_no_edge_from_zero_witness :
  (Edge "0" "1" ∉ body (generate_family_tree child_of_zero))
  /\ (Edge "0" "1" ∉ edges (generate_family_tree child_of_zero))
  /\ (forall g, length (body (add_edges g (person 1 "A" (Some (PyInt 0)) None)))
                <= S (length (body g)))%nat.
Proof.
  apply (C10_no_edge_from_zero child_of_zero (person 1 "A" (Some (PyInt 0)) None)).
  - apply list_elem_of_here.
  - left. reflexivity.
Defined.

(** ** Store and DELETE handler *)

Lemma load_data_run (w : world) :
  load_data w
  = (default [] (family_ref w), World (family_ref w) (calls w ++ [DbGet])).
Proof.
  unfold load_data, io_bind, ref_get, io_ret. simpl.
  by destruct (family_ref w) as [[|x rest]|].
Qed.

Lemma filter_keeps_all (member_id : Z) (family : list member) :
  Forall (fun m => id m <> member_id) family ->
  List.filter (fun m => negb (id m =? member_id)) family = family.
Proof.
  induction 1 as [|m family Hm _ IH]; simpl; [done|].
  apply Z.eqb_neq in Hm as ->. simpl. by f_equal.
Qed.

Lemma filter_drops_some (member_id : Z) (family : list member) :
  Exists (fun m => id m = member_id) family ->
  (length (List.filter (fun m => negb (id m =? member_id)%Z) family)
   < length family)%nat.
Proof.
  induction 1 as [m family Hm | m family _ IH]; simpl.
  - apply Z.eqb_eq in Hm as ->. simpl.
    pose proof (filter_length_le (fun m => negb (id m =? member_id)) family).
    lia.
  - destruct (negb (id m =? member_id)); simpl; lia.
Qed.

Lemma filter_bool_decide (member_id : Z) (family : list member) :
  List.filter (fun m => negb (id m =? member_id)) family
  = filter (fun m => id m <> member_id) family.
Proof.
  induction family as [|m family IH]; simpl; [done|].
  rewrite filter_cons, IH.
  destruct (Z.eqb_spec (id m) member_id) as [Heq|Hne]; simpl.
  - by rewrite decide_False by (by intros ?).
  - by rewrite decide_True.
Qed.

(** C8.  When no stored member carries the id, the DELETE handler answers
    404 "Member not found" after its one read of the store: it makes no
    [set] call, the stored document is the one it found, and loading
    again returns the same list. *)
Theorem C8_delete_unknown_id (w : world) (member_id : Z) :
  Forall (fun m => id m <> member_id) (fst (load_data w)) ->
  delete_family_member member_id w
  = (Response "error" "Member not found" 404,
     World (family_ref w) (calls w ++ [DbGet])) /\
  family_ref (snd (delete_family_member member_id w)) = family_ref w /\
  fst (load_data (snd (delete_family_member member_id w))) = fst (load_data w).
Proof.
  intros Hnone. rewrite load_data_run in Hnone. simpl in Hnone.
  assert (delete_family_member member_id w
          = (Response "error" "Member not found" 404,
             World (family_ref w) (calls w ++ [DbGet]))) as Hrun.
  { unfold delete_family_member, io_bind. rewrite load_data_run.
    rewrite filter_keeps_all by done. by rewrite Nat.eqb_refl. }
  rewrite Hrun. split; [done|]. split; [done|].
  by rewrite !load_data_run.
Qed.

Lemma C8_delete_unknown_id_witness :
  delete_family_member 7 stored_twice_five
  = (Response "error" "Member not found" 404,
     World (family_ref stored_twice_five) (calls stored_twice_five ++ [DbGet]))
  /\ family_ref (snd (delete_family_member 7 stored_twice_five))
     = family_ref stored_twice_five
  /\ fst (load_data (snd (delete_family_member 7 stored_twice_five)))
     = fst (load_data stored_twice_five).
Proof.
  apply (C8_delete_unknown_id stored_twice_five 7).
  repeat constructor; simpl; lia.
Defined.

(** C9.  When some stored member carries the id, the DELETE handler saves
    the list from which every member with that id is gone, all of them
    and not only the first, while the members with other ids stay, each
    as often as before and in their order; it then answers 200. *)
Theorem C9_delete_removes_all (w : world) (member_id : Z) :
  Exists (fun m => id m = member_id) (fst (load_data w)) ->
  exists updated_family,
    delete_family_member member_id w
    = (Response "message" "Member deleted successfully" 200,
       World (Some updated_family)
             (calls w ++ [DbGet; DbSet updated_family])) /\
    Forall (fun m => id m <> member_id) updated_family /\
    updated_family = filter (fun m => id m <> member_id) (fst (load_data w)) /\
    updated_family `sublist_of` fst (load_data w) /\
    (forall m, id m <> member_id ->
               m ∈ updated_family <-> m ∈ fst (load_data w)).
Proof.
  rewrite load_data_run. simpl. intros Hsome.
  exists (filter (fun m => id m <> member_id) (default [] (family_ref w))).
  split; [|split; [|split; [|split]]].
  - unfold delete_family_member, io_bind. rewrite load_data_run.
    apply filter_drops_some in Hsome.
    destruct (Nat.eqb_spec
      (length (List.filter (fun m => negb (id m =? member_id))
                 (default [] (family_ref w))))
      (length (default [] (family_ref w)))) as [Heq|_]; [lia|].
    unfold save_data, ref_set, io_ret. simpl.
    rewrite filter_bool_decide, <- app_assoc. done.
  - apply Forall_forall. intros m Hm.
    by apply list_elem_of_filter in Hm as [Hm _].
  - done.
  - apply sublist_filter.
  - intros m Hm. rewrite list_elem_of_filter. split; [by intros [_ ?]|done].
Qed.

Lemma C9_delete_removes_all_witness :
  exists updated_family,
    delete_family_member 5 stored_twice_five
    = (Response "message" "Member deleted successfully" 200,
       World (Some updated_family)
             (calls stored_twice_five ++ [DbGet; DbSet updated_family])) /\
    Forall (fun m => id m <> 5) updated_family /\
    updated_family
    = filter (fun m => id m <> 5) (fst (load_data stored_twice_five)) /\
    updated_family `sublist_of` fst (load_data stored_twice_five) /\
    (forall m, id m <> 5 ->
               m ∈ updated_family <-> m ∈ fst (load_data stored_twice_five)).
Proof.
  apply (C9_delete_removes_all stored_twice_five 5).
  apply Exists_cons_hd. reflexivity.
Defined.

Example delete_twice_five :
  delete_family_member 5 stored_twice_five
  = (Response "message" "Member deleted successfully" 200,
     World (Some [person 6 "M" None None])
           [DbGet; DbSet [person 6 "M" None None]]).
Proof. reflexivity. Qed.

(** ** Further properties of the relationship engine *)

Lemma relate_anak (index : gmap Z member) (member_id : Z) (m : member) :
  relate index member_id m = Some Anak <-> rule_anak member_id m = true.
Proof.
  unfold relate.
  destruct (rule_anak member_id m), (rule_cucu index member_id m),
    (rule_keponakan index member_id m), (rule_saudara index member_id m);
    split; done.
Qed.

Lemma rule_anak_true (member_id : Z) (m : member) :
  rule_anak member_id m = true <->
  dict_get (parent1_id m) = PyInt member_id \/
  dict_get (parent2_id m) = PyInt member_id.
Proof.
  unfold rule_anak, py_in, member_parents. simpl.
  rewrite orb_false_r, orb_true_iff, !py_eq_spec. done.
Qed.

Lemma rule_keponakan_spec (index : gmap Z member) (member_id : Z)
    (m : member) :
  rule_keponakan index member_id m = true <->
  exists (p : Z) (q : member),
    dict_get (parent1_id m) = PyInt p /\ index !! p = Some q /\
    (dict_get (parent1_id q) = PyInt member_id \/
     dict_get (parent2_id q) = PyInt member_id).
Proof.
  unfold rule_keponakan, py_in. simpl.
  rewrite orb_false_r, orb_true_iff, !py_eq_spec. split.
  - intros Hq. destruct (dict_get (parent1_id m)) as [|p]; simpl in Hq.
    { by destruct Hq. }
    destruct (index !! p) as [q|] eqn:Hp; simpl in Hq; [|by destruct Hq].
    by exists p, q.
  - intros (p & q & -> & Hp & Hq). simpl. by rewrite Hp.
Qed.

(** A member both of whose parent fields read [None] is given no label. *)
Lemma relate_needs_parent (index : gmap Z member) (member_id : Z)
    (m : member) (r : relationship) :
  relate index member_id m = Some r ->
  dict_get (parent1_id m) <> PyNone \/ dict_get (parent2_id m) <> PyNone.
Proof.
  intros Hrel.
  destruct (dict_get (parent1_id m)) as [|p] eqn:Hp1; [|by left].
  destruct (dict_get (parent2_id m)) as [|p] eqn:Hp2; [|by right].
  unfold relate, rule_anak, rule_cucu, rule_keponakan, rule_saudara,
    member_parents, py_in in Hrel.
  rewrite Hp1, Hp2 in Hrel. simpl in Hrel. discriminate.
Qed.

Lemma writes_for_app (index : gmap Z member) (member_id i : Z)
    (l1 l2 : list member) :
  writes_for index member_id i (l1 ++ l2)
  = writes_for index member_id i l1 ++ writes_for index member_id i l2.
Proof. unfold writes_for. apply omap_app. Qed.

Lemma writes_for_none (index : gmap Z member) (member_id i : Z)
    (l : list member) :
  Forall (fun m => id m = i -> relate index member_id m = None) l ->
  writes_for index member_id i l = [].
Proof.
  induction 1 as [|m l Hm _ IH]; [done|].
  change (m :: l) with ([m] ++ l). rewrite writes_for_app, IH, app_nil_r.
  unfold writes_for. simpl.
  destruct (decide (id m = i)) as [Hid|]; [|done].
  unfold written. rewrite (Hm Hid). by destruct (id m =? member_id).
Qed.

(** The subject is never a key of the result, whatever the list holds,
    duplicates of the subject's id and members naming themselves as parent
    included. *)
Theorem subject_never_labelled (family : list member) (member_id : Z) :
  calculate_relationship family member_id !! member_id = None.
Proof.
  destruct (calculate_relationship family member_id !! member_id)
    as [r|] eqn:Hr; [|done].
  apply calculate_relationship_origin in Hr as (m & _ & Hid & Hne & _).
  done.
Qed.

(** Every key of the result is the id of a member of the list other than
    the subject, and that member has a parent field that is not [None]:
    a member without any parent is never labelled through its own
    iteration. *)
Theorem labelled_ids_have_parents (family : list member) (member_id i : Z)
    (r : relationship) :
  calculate_relationship family member_id !! i = Some r ->
  exists m, m ∈ family /\ id m = i /\ i <> member_id /\
            (dict_get (parent1_id m) <> PyNone \/
             dict_get (parent2_id m) <> PyNone).
Proof.
  intros (m & Hin & Hid & Hne & Hrel)%calculate_relationship_origin.
  exists m. repeat split; [done|done|congruence|].
  by apply relate_needs_parent in Hrel.
Qed.

Lemma labelled_ids_have_parents_witness :
  exists m, m ∈ scenario_B /\ id m = 3 /\ 3 <> 1 /\
            (dict_get (parent1_id m) <> PyNone \/
             dict_get (parent2_id m) <> PyNone).
Proof.
  apply (labelled_ids_have_parents scenario_B 1 3 Cucu). reflexivity.
Defined.

(** For a member other than the subject that alone carries its id, the
    result holds "Anak" exactly when its "parent1_id" or its "parent2_id"
    is the subject's id; the comparison has no truthiness guard, so the
    subject 0 is recognised as a parent like any other. *)
Theorem child_rule (family : list member) (member_id : Z) (m : member) :
  m ∈ family -> id m <> member_id -> sole_bearer family m ->
  calculate_relationship family member_id !! id m = Some Anak <->
  dict_get (parent1_id m) = PyInt member_id \/
  dict_get (parent2_id m) = PyInt member_id.
Proof.
  intros Hin Hne Hsole.
  rewrite calculate_relationship_sole by done.
  by rewrite relate_anak, rule_anak_true.
Qed.

Lemma child_rule_witness :
  calculate_relationship zero_parent 0 !! 5 = Some Anak <->
  dict_get (parent1_id (person 5 "X" (Some (PyInt 0)) None)) = PyInt 0 \/
  dict_get (parent2_id (person 5 "X" (Some (PyInt 0)) None)) = PyInt 0.
Proof.
  apply (child_rule zero_parent 0 (person 5 "X" (Some (PyInt 0)) None)).
  - unfold zero_parent. member_of_list.
  - simpl; lia.
  - sole_in_list.
Defined.

(** For a member other than the subject that alone carries its id and
    that neither the "Anak" nor the "Cucu" rule matches, the result holds
    "Keponakan" exactly when the member's "parent1_id" is an integer found
    in the index at a member one of whose two parent fields is the
    subject.  Only the first parent of the member is followed, and it is
    followed when it is 0 as well. *)
Theorem keponakan_rule (family : list member) (member_id : Z) (m : member) :
  m ∈ family -> id m <> member_id -> sole_bearer family m ->
  rule_anak member_id m = false ->
  rule_cucu (id_to_member family) member_id m = false ->
  calculate_relationship family member_id !! id m = Some Keponakan <->
  exists (p : Z) (q : member),
    dict_get (parent1_id m) = PyInt p /\
    id_to_member family !! p = Some q /\
    (dict_get (parent1_id q) = PyInt member_id \/
     dict_get (parent2_id q) = PyInt member_id).
Proof.
  intros Hin Hne Hsole Hanak Hcucu.
  rewrite calculate_relationship_sole by done.
  rewrite <- rule_keponakan_spec. unfold relate. rewrite Hanak, Hcucu.
  destruct (rule_keponakan (id_to_member family) member_id m),
    (rule_saudara (id_to_member family) member_id m); split; done.
Qed.

Lemma keponakan_rule_witness :
  calculate_relationship through_parent2 1 !! 3 = Some Keponakan <->
  exists (p : Z) (q : member),
    dict_get (parent1_id (person 3 "C" (Some (PyInt 2)) None)) = PyInt p /\
    id_to_member through_parent2 !! p = Some q /\
    (dict_get (parent1_id q) = PyInt 1 \/ dict_get (parent2_id q) = PyInt 1).
Proof.
  apply (keponakan_rule through_parent2 1 (person 3 "C" (Some (PyInt 2)) None)).
  - unfold through_parent2. member_of_list.
  - simpl; lia.
  - sole_in_list.
  - reflexivity.
  - reflexivity.
Defined.

(** The label found under an id is the one of the last member with that
    id for which a rule matches: when no member after [m] with the id of
    [m] is given a label, the label of [m] stands. *)
Theorem last_labelled_member_wins (l1 l2 : list member) (m : member)
    (member_id : Z) (r : relationship) :
  id m <> member_id ->
  relate (id_to_member (l1 ++ m :: l2)) member_id m = Some r ->
  Forall (fun m' => id m' = id m ->
            relate (id_to_member (l1 ++ m :: l2)) member_id m' = None) l2 ->
  calculate_relationship (l1 ++ m :: l2) member_id !! id m = Some r.
Proof.
  intros Hne Hrel Hlater.
  rewrite calculate_relationship_lookup.
  set (index := id_to_member (l1 ++ m :: l2)) in *.
  rewrite (writes_for_app _ _ _ l1 (m :: l2)).
  change (m :: l2) with ([m] ++ l2).
  rewrite writes_for_app, (writes_for_none _ _ _ l2 Hlater), app_nil_r.
  unfold writes_for at 2. simpl. rewrite decide_True by done.
  unfold written. apply Z.eqb_neq in Hne as ->. rewrite Hrel. simpl.
  by rewrite last_snoc.
Qed.

Lemma last_labelled_member_wins_witness :
  calculate_relationship
    ([person 1 "A" None None; person 5 "Y" None None]
     ++ person 5 "X" (Some (PyInt 1)) None :: [person 5 "Z" None None]) 1
  !! id (person 5 "X" (Some (PyInt 1)) None) = Some Anak.
Proof.
  apply last_labelled_member_wins.
  - simpl; lia.
  - reflexivity.
  - repeat constructor.
Defined.

(** The index has an entry for an id exactly when some member of the list
    carries it, and the entry is a member of the list with that id. *)
Theorem index_entries (family : list member) (i : Z) :
  (is_Some (id_to_member family !! i) <-> exists m, m ∈ family /\ id m = i) /\
  (forall q, id_to_member family !! i = Some q -> q ∈ family /\ id q = i).
Proof.
  split; [|apply id_to_member_elem]. split.
  - intros [q Hq]. exists q. by apply id_to_member_elem.
  - intros (m & Hin & Hid). rewrite id_to_member_lookup.
    destruct (last (filter (fun m => id m = i) family)) as [q|] eqn:Hl; [done|].
    apply last_None in Hl.
    assert (m ∈ filter (fun m => id m = i) family) as Hm
      by (by apply list_elem_of_filter).
    rewrite Hl in Hm. by apply elem_of_nil in Hm.
Qed.

(** A member appended to the list with the subject as one of its parents
    is labelled "Anak", whether or not its id was already in use: it is
    the last member with its id. *)
Theorem appended_child_is_labelled (family : list member) (m : member)
    (member_id : Z) :
  id m <> member_id ->
  dict_get (parent1_id m) = PyInt member_id \/
  dict_get (parent2_id m) = PyInt member_id ->
  calculate_relationship (family ++ [m]) member_id !! id m = Some Anak.
Proof.
  intros Hne Hparent.
  rewrite calculate_relationship_lookup, writes_for_app.
  unfold writes_for at 2. simpl. rewrite decide_True by done.
  unfold written. apply Z.eqb_neq in Hne as ->.
  apply rule_anak_true in Hparent. unfold relate. rewrite Hparent. simpl.
  by rewrite last_snoc.
Qed.

Lemma appended_child_is_labelled_witness :
  calculate_relationship (scenario_A ++ [person 2 "D" None (Some (PyInt 1))]) 1
  !! id (person 2 "D" None (Some (PyInt 1))) = Some Anak.
Proof.
  apply appended_child_is_labelled.
  - simpl; lia.
  - right. reflexivity.
Defined.

(** ** Further properties of the tree builder *)

(** The body of the graph is the layout attribute, then the node
    statements, then the edge statements: every node is declared before
    the first edge, and the format is "png". *)
Theorem graph_layout (family : list member) :
  format (generate_family_tree family) = "png" /\
  body (generate_family_tree family)
  = GraphAttr "rankdir" "TB"
    :: nodes (generate_family_tree family)
    ++ edges (generate_family_tree family).
Proof.
  split.
  - unfold generate_family_tree.
    assert (forall l g, format (foldl add_edges g l) = format g) as He.
    { induction l as [|m l IH]; intros g; simpl; [done|].
      rewrite IH. unfold add_edges, add_parent_edge.
      destruct (present_and_truthy (parent1_id m)),
        (present_and_truthy (parent2_id m)); done. }
    assert (forall l g, format (foldl add_node g l) = format g) as Hn.
    { induction l as [|m l IH]; intros g; simpl; [done|]. by rewrite IH. }
    by rewrite He, Hn.
  - rewrite nodes_generate_family_tree, edges_generate_family_tree.
    apply body_generate_family_tree.
Qed.

(** The head of every edge is the node of a member of the list, declared
    in the same graph, and its tail is the decimal form of one of that
    member's parent ids; the tail itself need not be declared. *)
Theorem edge_heads_are_declared (family : list member) (t h : string) :
  Edge t h ∈ body (generate_family_tree family) ->
  exists m, m ∈ family /\ h = str_int (id m) /\
            Node h (node_label m) "box" ∈ body (generate_family_tree family) /\
            (t = str (dict_get (parent1_id m)) \/
             t = str (dict_get (parent2_id m))).
Proof.
  rewrite body_generate_family_tree.
  intros Hin. apply elem_of_cons in Hin as [Hin|Hin]; [done|].
  apply elem_of_app in Hin as [Hin|Hin].
  { apply list_elem_of_fmap in Hin as (m & Hm & _). done. }
  apply list_elem_of_In, in_flat_map in Hin as (m & Hm & Hin).
  unfold parent_edges in Hin. apply in_map_iff in Hin as (v & [= <- <-] & Hv).
  apply filter_In in Hv as [Hv _]. apply list_elem_of_In in Hm.
  exists m. split; [done|]. split; [done|]. split.
  - apply list_elem_of_further, elem_of_app. left.
    apply list_elem_of_fmap. by exists m.
  - unfold member_parents in Hv. simpl in Hv.
    destruct Hv as [<-|[<-|[]]]; [by left|by right].
Qed.

Lemma edge_heads_are_declared_witness :
  exists m, m ∈ scenario_A /\ "2" = str_int (id m) /\
            Node "2" (node_label m) "box" ∈ body (generate_family_tree scenario_A) /\
            ("1" = str (dict_get (parent1_id m)) \/
             "1" = str (dict_get (parent2_id m))).
Proof.
  apply (edge_heads_are_declared scenario_A "1" "2").
  vm_compute. member_of_list.
Defined.

(** Two node statements of the graph that bear the same name come from
    members with the same id: members with different ids never share a
    node. *)
Theorem same_node_same_id (family : list member)
    (n l1 l2 sh1 sh2 : string) :
  Node n l1 sh1 ∈ body (generate_family_tree family) ->
  Node n l2 sh2 ∈ body (generate_family_tree family) ->
  exists m1 m2, m1 ∈ family /\ m2 ∈ family /\ id m1 = id m2 /\
                n = str_int (id m1) /\
                l1 = node_label m1 /\ l2 = node_label m2.
Proof.
  assert (forall l sh, Node n l sh ∈ body (generate_family_tree family) ->
            exists m, m ∈ family /\ n = str_int (id m) /\ l = node_label m)
    as Hnode.
  { intros l sh. rewrite body_generate_family_tree.
    intros Hin. apply elem_of_cons in Hin as [Hin|Hin]; [done|].
    apply elem_of_app in Hin as [Hin|Hin].
    - apply list_elem_of_fmap in Hin as (m & [= -> -> _] & Hm). by exists m.
    - apply list_elem_of_In, in_flat_map in Hin as (m & _ & Hin).
      unfold parent_edges in Hin. by apply in_map_iff in Hin as (v & ? & _). }
  intros (m1 & Hm1 & Hn1 & ->)%Hnode (m2 & Hm2 & Hn2 & ->)%Hnode.
  exists m1, m2. repeat split; try done.
  apply str_int_inj. congruence.
Qed.

Lemma same_node_same_id_witness :
  exists m1 m2, m1 ∈ scenario_A /\ m2 ∈ scenario_A /\ id m1 = id m2 /\
                "2"%string = str_int (id m1) /\
                (String "B" (newline ++ "(G)"))%string = node_label m1 /\
                (String "B" (newline ++ "(G)"))%string = node_label m2.
Proof.
  apply (same_node_same_id scenario_A "2" _ _ "box" "box");
    vm_compute; member_of_list.
Defined.

(** ** Further properties of the store and of the DELETE handler *)


Lemma delete_run_absent (w : world) (member_id : Z) :
  Forall (fun m => id m <> member_id) (default [] (family_ref w)) ->
  delete_family_member member_id w
  = (Response "error" "Member not found" 404,
     World (family_ref w) (calls w ++ [DbGet])).
Proof.
  intros Hnone. unfold delete_family_member, io_bind. rewrite load_data_run.
  rewrite filter_keeps_all by done. by rewrite Nat.eqb_refl.
Qed.

Lemma delete_run_present (w : world) (member_id : Z) :
  Exists (fun m => id m = member_id) (default [] (family_ref w)) ->
  delete_family_member member_id w
  = (Response "message" "Member deleted successfully" 200,
     World (Some (filter (fun m => id m <> member_id)
                         (default [] (family_ref w))))
           (calls w ++ [DbGet;
                        DbSet (filter (fun m => id m <> member_id)
                                      (default [] (family_ref w)))])).
Proof.
  intros Hsome. unfold delete_family_member, io_bind. rewrite load_data_run.
  apply filter_drops_some in Hsome.
  destruct (Nat.eqb_spec
    (length (List.filter (fun m => negb (id m =? member_id))
               (default [] (family_ref w))))
    (length (default [] (family_ref w)))) as [Heq|_]; [lia|].
  unfold save_data, ref_set, io_ret. simpl.
  by rewrite filter_bool_decide, <- app_assoc.
Qed.

Lemma absent_or_present (member_id : Z) (family : list member) :
  Forall (fun m => id m <> member_id) family \/
  Exists (fun m => id m = member_id) family.
Proof.
  destruct (decide (Exists (fun m => id m = member_id) family)) as [|Hno];
    [by right|left].
  apply Forall_forall. intros m Hm Hid. apply Hno.
  apply Exists_exists. by exists m.
Qed.

(** Whatever a first DELETE of an id did, a second DELETE of the same id
    answers 404 and writes nothing. *)
Theorem delete_twice (w : world) (member_id : Z) :
  delete_family_member member_id (snd (delete_family_member member_id w))
  = (Response "error" "Member not found" 404,
     World (family_ref (snd (delete_family_member member_id w)))
           (calls (snd (delete_family_member member_id w)) ++ [DbGet])).
Proof.
  apply delete_run_absent.
  destruct (absent_or_present member_id (default [] (family_ref w)))
    as [Hnone|Hsome].
  - by rewrite delete_run_absent.
  - rewrite delete_run_present by done. simpl.
    apply Forall_forall. intros m Hm.
    by apply list_elem_of_filter in Hm as [Hm _].
Qed.

(** ** The POST handler *)

Lemma save_data_run (family : list member) (w : world) :
  save_data family w = (tt, World (Some family) (calls w ++ [DbSet family])).
Proof. done. Qed.

Lemma add_run_complete (new_member : post_body) (w : world) (i : Z)
    (n a : string) :
  post_id new_member = Some i -> post_name new_member = Some n ->
  post_anggota new_member = Some a ->
  add_family_member new_member w
  = (Response "message" "Member added successfully" 201,
     World (Some (default [] (family_ref w)
                  ++ [Member i n (Some a)
                        (Some (dict_get (post_parent1_id new_member)))
                        (Some (dict_get (post_parent2_id new_member)))]))
           (calls w ++
            [DbGet;
             DbSet (default [] (family_ref w)
                    ++ [Member i n (Some a)
                          (Some (dict_get (post_parent1_id new_member)))
                          (Some (dict_get (post_parent2_id new_member)))])])).
Proof.
  intros Hi Hn Ha. unfold add_family_member, io_bind.
  rewrite load_data_run, Hi, Hn, Ha, save_data_run. unfold io_ret. simpl.
  by rewrite <- app_assoc.
Qed.

(** A body that lacks "id", "name" or "anggota" is answered 400 with the
    first of these it lacks, in this order; the store has been read and is
    not written. *)
Theorem add_missing_field (new_member : post_body) (w : world)
    (field : string) :
  first_missing new_member = Some field ->
  add_family_member new_member w
  = (Response "error" ("Field '" ++ field ++ "' is required") 400,
     World (family_ref w) (calls w ++ [DbGet])).
Proof.
  unfold first_missing, required_fields, add_family_member, io_bind.
  rewrite load_data_run.
  destruct new_member as [[i|] [n|] [a|] p1 p2]; vm_compute;
    intros [= <-]; reflexivity.
Qed.

Lemma add_missing_field_witness :
  add_family_member (PostBody (Some 4) None None None None) stored_twice_five
  = (Response "error" ("Field '" ++ "name" ++ "' is required") 400,
     World (family_ref stored_twice_five) (calls stored_twice_five ++ [DbGet])).
Proof.
  apply (add_missing_field (PostBody (Some 4) None None None None)
           stored_twice_five "name").
  reflexivity.
Defined.

(** A body with the three required fields is always accepted, whatever
    ids are already stored: the member is appended to the end of the list
    with both parent keys present ([None] where the body had none), the
    list is saved once, and GET /family then returns it. *)
Theorem add_appends (new_member : post_body) (w : world) :
  first_missing new_member = None ->
  exists i n a,
    post_id new_member = Some i /\ post_name new_member = Some n /\
    post_anggota new_member = Some a /\
    fst (add_family_member new_member w)
    = Response "message" "Member added successfully" 201 /\
    fst (get_family (snd (add_family_member new_member w)))
    = (fst (load_data w)
       ++ [Member i n (Some a)
             (Some (dict_get (post_parent1_id new_member)))
             (Some (dict_get (post_parent2_id new_member)))],
       200).
Proof.
  intros Hnone.
  destruct new_member as [[i|] [n|] [a|] p1 p2]; try (vm_compute in Hnone; discriminate).
  exists i, n, a. split; [done|]. split; [done|]. split; [done|].
  rewrite (add_run_complete _ w i n a) by done. split; [done|].
  unfold get_family, io_bind. rewrite !load_data_run. simpl.
  by destruct (default [] (family_ref w)).
Qed.

Lemma add_appends_witness :
  exists i n a,
    post_id (PostBody (Some 5) (Some "N"%string) (Some "G"%string) None None)
    = Some i /\
    post_name (PostBody (Some 5) (Some "N"%string) (Some "G"%string) None None)
    = Some n /\
    post_anggota (PostBody (Some 5) (Some "N"%string) (Some "G"%string) None None)
    = Some a /\
    fst (add_family_member
           (PostBody (Some 5) (Some "N"%string) (Some "G"%string) None None)
           stored_twice_five)
    = Response "message" "Member added successfully" 201 /\
    fst (get_family (snd (add_family_member
           (PostBody (Some 5) (Some "N"%string) (Some "G"%string) None None)
           stored_twice_five)))
    = (fst (load_data stored_twice_five)
       ++ [Member i n (Some a)
             (Some (dict_get (post_parent1_id
                (PostBody (Some 5) (Some "N"%string) (Some "G"%string) None None))))
             (Some (dict_get (post_parent2_id
                (PostBody (Some 5) (Some "N"%string) (Some "G"%string) None None))))],
       200).
Proof.
  apply (add_appends
           (PostBody (Some 5) (Some "N"%string) (Some "G"%string) None None)
           stored_twice_five).
  reflexivity.
Defined.

(** POST does not look at the ids already stored.  After a member has
    been added, the index built from the stored list returns this member
    for its id, also when the id was in use before. *)
Theorem added_member_is_indexed (new_member : post_body) (w : world)
    (i : Z) (n a : string) :
  post_id new_member = Some i -> post_name new_member = Some n ->
  post_anggota new_member = Some a ->
  id_to_member (fst (load_data (snd (add_family_member new_member w)))) !! i
  = Some (Member i n (Some a)
            (Some (dict_get (post_parent1_id new_member)))
            (Some (dict_get (post_parent2_id new_member)))).
Proof.
  intros Hi Hn Ha. rewrite (add_run_complete _ w i n a) by done.
  rewrite load_data_run. simpl.
  rewrite id_to_member_snoc. simpl. by rewrite lookup_insert_eq.
Qed.

Lemma added_member_is_indexed_witness :
  id_to_member
    (fst (load_data (snd (add_family_member
       (PostBody (Some 5) (Some "N"%string) (Some "G"%string) None None)
       stored_twice_five)))) !! 5
  = Some (Member 5 "N" (Some "G"%string)
            (Some (dict_get (post_parent1_id
               (PostBody (Some 5) (Some "N"%string) (Some "G"%string) None None))))
            (Some (dict_get (post_parent2_id
               (PostBody (Some 5) (Some "N"%string) (Some "G"%string) None None))))).
Proof.
  apply (added_member_is_indexed
           (PostBody (Some 5) (Some "N"%string) (Some "G"%string) None None)
           stored_twice_five 5 "N" "G"); reflexivity.
Defined.

(** Adding a member under an id no stored member carries and then
    deleting that id gives back the list that was stored before: the
    DELETE answers 200 and a load returns the former list. *)
Theorem add_then_delete (new_member : post_body) (w : world)
    (i : Z) (n a : string) :
  post_id new_member = Some i -> post_name new_member = Some n ->
  post_anggota new_member = Some a ->
  Forall (fun m => id m <> i) (fst (load_data w)) ->
  fst (delete_family_member i (snd (add_family_member new_member w)))
  = Response "message" "Member deleted successfully" 200 /\
  fst (load_data
         (snd (delete_family_member i (snd (add_family_member new_member w)))))
  = fst (load_data w).
Proof.
  intros Hi Hn Ha Hfresh. rewrite load_data_run in Hfresh. simpl in Hfresh.
  rewrite !load_data_run. simpl.
  rewrite (add_run_complete _ w i n a) by done. simpl.
  rewrite delete_run_present.
  2:{ simpl. apply Exists_app. right. by apply Exists_cons_hd. }
  split; [done|]. simpl.
  rewrite filter_app, filter_cons, filter_nil. simpl.
  rewrite decide_False by (by intros ?). rewrite app_nil_r.
  rewrite <- filter_bool_decide. by apply filter_keeps_all.
Qed.

Lemma add_then_delete_witness :
  fst (delete_family_member 8
         (snd (add_family_member
                 (PostBody (Some 8) (Some "N"%string) (Some "G"%string) None None)
                 stored_twice_five)))
  = Response "message" "Member deleted successfully" 200 /\
  fst (load_data
         (snd (delete_family_member 8
                 (snd (add_family_member
                         (PostBody (Some 8) (Some "N"%string) (Some "G"%string)
                                   None None)
                         stored_twice_five)))))
  = fst (load_data stored_twice_five).
Proof.
  apply (add_then_delete
           (PostBody (Some 8) (Some "N"%string) (Some "G"%string) None None)
           stored_twice_five 8 "N" "G"); try reflexivity.
  repeat constructor; simpl; lia.
Defined.

(** ** The PUT handler *)

Lemma update_loop_absent (member_id : Z) (updated_data : put_body)
    (family : list member) :
  Forall (fun m => id m <> member_id) family ->
  update_loop member_id updated_data family = None.
Proof.
  induction 1 as [|m family Hm _ IH]; simpl; [done|].
  apply Z.eqb_neq in Hm as ->. by rewrite IH.
Qed.

Lemma update_loop_first (member_id : Z) (updated_data : put_body)
    (l1 l2 : list member) (m : member) :
  Forall (fun m' => id m' <> member_id) l1 -> id m = member_id ->
  update_loop member_id updated_data (l1 ++ m :: l2)
  = match update_member updated_data m with
    | inl e => Some (inl e)
    | inr m' => Some (inr (l1 ++ m' :: l2))
    end.
Proof.
  intros Hl1 Hm. induction Hl1 as [|m0 l1 Hm0 _ IH]; simpl.
  - apply Z.eqb_eq in Hm as ->. done.
  - apply Z.eqb_neq in Hm0 as ->. rewrite IH.
    by destruct (update_member updated_data m).
Qed.

Lemma update_member_id (updated_data : put_body) (m m' : member) :
  update_member updated_data m = inr m' -> id m' = id m.
Proof.
  unfold update_member, subscript.
  destruct (anggota m), (parent1_id m), (parent2_id m); try discriminate.
  by intros [= <-].
Qed.

Lemma update_loop_ids (member_id : Z) (updated_data : put_body)
    (family updated_family : list member) :
  update_loop member_id updated_data family = Some (inr updated_family) ->
  map id updated_family = map id family.
Proof.
  revert updated_family.
  induction family as [|m family IH]; intros updated_family; simpl; [done|].
  destruct (id m =? member_id).
  - destruct (update_member updated_data m) as [e|m'] eqn:Hm'; [done|].
    intros [= <-]. simpl. f_equal. by apply update_member_id in Hm'.
  - destruct (update_loop member_id updated_data family) as [[e|rest]|];
      try done.
    intros [= <-]. simpl. f_equal. by apply IH.
Qed.

Lemma update_run (w : world) (member_id : Z) (updated_data : put_body) :
  update_family_member member_id updated_data w
  = match update_loop member_id updated_data (default [] (family_ref w)) with
    | Some (inr updated_family) =>
        (Returned (Response "message" "Member updated successfully" 200),
         World (Some updated_family)
               (calls w ++ [DbGet; DbSet updated_family]))
    | Some (inl e) =>
        (Raised e, World (family_ref w) (calls w ++ [DbGet]))
    | None =>
        (Returned (Response "error" "Member not found" 404),
         World (family_ref w) (calls w ++ [DbGet]))
    end.
Proof.
  unfold update_family_member, io_bind. rewrite load_data_run.
  destruct (update_loop member_id updated_data (default [] (family_ref w)))
    as [[e|updated_family]|]; try done.
  rewrite save_data_run. unfold io_ret. simpl. by rewrite <- app_assoc.
Qed.

(** PUT on an id no stored member carries answers 404 and writes
    nothing. *)
Theorem update_unknown_id (w : world) (member_id : Z)
    (updated_data : put_body) :
  Forall (fun m => id m <> member_id) (fst (load_data w)) ->
  update_family_member member_id updated_data w
  = (Returned (Response "error" "Member not found" 404),
     World (family_ref w) (calls w ++ [DbGet])).
Proof.
  intros Hnone. rewrite load_data_run in Hnone. simpl in Hnone.
  by rewrite update_run, update_loop_absent.
Qed.

Lemma update_unknown_id_witness :
  update_family_member 7 (PutBody (Some "N"%string) None None None)
    stored_twice_five
  = (Returned (Response "error" "Member not found" 404),
     World (family_ref stored_twice_five) (calls stored_twice_five ++ [DbGet])).
Proof.
  apply update_unknown_id. repeat constructor; simpl; lia.
Defined.

(** PUT changes the first stored member with the id and no other: the
    members before and after it, later members with the same id included,
    are saved as they were.  Of the member itself the id is kept, and each
    other field takes the value of the body where the body has the key and
    keeps its own value otherwise. *)
Theorem update_first_only (w : world) (member_id : Z)
    (updated_data : put_body) (l1 l2 : list member) (m : member)
    (a : string) (p1 p2 : pyval) :
  fst (load_data w) = l1 ++ m :: l2 ->
  Forall (fun m' => id m' <> member_id) l1 -> id m = member_id ->
  anggota m = Some a -> parent1_id m = Some p1 -> parent2_id m = Some p2 ->
  update_family_member member_id updated_data w
  = (Returned (Response "message" "Member updated successfully" 200),
     World (Some (l1 ++ Member member_id
                          (default (name m) (put_name updated_data))
                          (Some (default a (put_anggota updated_data)))
                          (Some (default p1 (put_parent1_id updated_data)))
                          (Some (default p2 (put_parent2_id updated_data)))
                        :: l2))
           (calls w ++
            [DbGet;
             DbSet (l1 ++ Member member_id
                            (default (name m) (put_name updated_data))
                            (Some (default a (put_anggota updated_data)))
                            (Some (default p1 (put_parent1_id updated_data)))
                            (Some (default p2 (put_parent2_id updated_data)))
                          :: l2)])).
Proof.
  intros Hload Hl1 Hm Ha Hp1 Hp2. rewrite load_data_run in Hload.
  simpl in Hload. rewrite update_run, Hload, update_loop_first by done.
  unfold update_member, subscript. by rewrite Ha, Hp1, Hp2, Hm.
Qed.

Lemma update_first_only_witness :
  update_family_member 5 (PutBody (Some "N"%string) None None None)
    (World (Some ([person 6 "M" (Some PyNone) (Some PyNone)]
                  ++ person 5 "X" (Some PyNone) (Some PyNone)
                  :: [person 5 "Y" (Some PyNone) (Some PyNone)])) [])
  = (Returned (Response "message" "Member updated successfully" 200),
     World (Some ([person 6 "M" (Some PyNone) (Some PyNone)]
                  ++ Member 5 "N" (Some "G"%string) (Some PyNone) (Some PyNone)
                  :: [person 5 "Y" (Some PyNone) (Some PyNone)]))
           [DbGet;
            DbSet ([person 6 "M" (Some PyNone) (Some PyNone)]
                   ++ Member 5 "N" (Some "G"%string) (Some PyNone) (Some PyNone)
                   :: [person 5 "Y" (Some PyNone) (Some PyNone)])]).
Proof.
  apply (update_first_only
           (World (Some ([person 6 "M" (Some PyNone) (Some PyNone)]
                         ++ person 5 "X" (Some PyNone) (Some PyNone)
                         :: [person 5 "Y" (Some PyNone) (Some PyNone)])) [])
           5 (PutBody (Some "N"%string) None None None)
           [person 6 "M" (Some PyNone) (Some PyNone)]
           [person 5 "Y" (Some PyNone) (Some PyNone)]
           (person 5 "X" (Some PyNone) (Some PyNone)) "G" PyNone PyNone);
    try reflexivity.
  repeat constructor; simpl; lia.
Defined.

(** When the first stored member with the id lacks the key "anggota",
    "parent1_id" or "parent2_id", PUT raises [KeyError] for the first key
    it lacks, in this order, whether or not the body supplies that key,
    and writes nothing. *)
Theorem update_key_error (w : world) (member_id : Z)
    (updated_data : put_body) (l1 l2 : list member) (m : member) :
  fst (load_data w) = l1 ++ m :: l2 ->
  Forall (fun m' => id m' <> member_id) l1 -> id m = member_id ->
  anggota m = None \/ parent1_id m = None \/ parent2_id m = None ->
  update_family_member member_id updated_data w
  = (Raised (KeyError
       match anggota m, parent1_id m with
       | None, _ => "anggota"
       | Some _, None => "parent1_id"
       | Some _, Some _ => "parent2_id"
       end),
     World (family_ref w) (calls w ++ [DbGet])).
Proof.
  intros Hload Hl1 Hm Hlacks. rewrite load_data_run in Hload.
  simpl in Hload. rewrite update_run, Hload, update_loop_first by done.
  unfold update_member, subscript.
  destruct (anggota m), (parent1_id m), (parent2_id m); try done.
  by destruct Hlacks as [?|[?|?]].
Qed.

Lemma update_key_error_witness :
  update_family_member 5
    (PutBody None None (Some (PyInt 6)) None)
    (World (Some ([] ++ person 5 "X" None None
                  :: [person 6 "M" None None])) [])
  = (Raised (KeyError
       match anggota (person 5 "X" None None),
             parent1_id (person 5 "X" None None) with
       | None, _ => "anggota"
       | Some _, None => "parent1_id"
       | Some _, Some _ => "parent2_id"
       end),
     World (family_ref (World (Some ([] ++ person 5 "X" None None
                                     :: [person 6 "M" None None])) []))
           (calls (World (Some ([] ++ person 5 "X" None None
                                :: [person 6 "M" None None])) [])
            ++ [DbGet])).
Proof.
  apply (update_key_error
           (World (Some ([] ++ person 5 "X" None None
                         :: [person 6 "M" None None])) [])
           5 (PutBody None None (Some (PyInt 6)) None)
           [] [person 6 "M" None None] (person 5 "X" None None)).
  - reflexivity.
  - constructor.
  - reflexivity.
  - right. left. reflexivity.
Defined.

(** PUT never changes an id, nor the number or the order of the stored
    members, whatever its outcome. *)
Theorem update_keeps_ids (w : world) (member_id : Z)
    (updated_data : put_body) :
  map id (fst (load_data
                 (snd (update_family_member member_id updated_data w))))
  = map id (fst (load_data w)).
Proof.
  rewrite !load_data_run, update_run. simpl.
  destruct (update_loop member_id updated_data (default [] (family_ref w)))
    as [[e|updated_family]|] eqn:Hloop; simpl; try done.
  by apply update_loop_ids in Hloop.
Qed.

Lemma update_loop_empty_body (member_id : Z)
    (family updated_family : list member) :
  update_loop member_id (PutBody None None None None) family
  = Some (inr updated_family) ->
  updated_family = family.
Proof.
  revert updated_family.
  induction family as [|m family IH]; intros updated_family; simpl; [done|].
  destruct (id m =? member_id).
  - unfold update_member, subscript.
    destruct m as [i n [a|] [p1|] [p2|]]; simpl; try done.
    by intros [= <-].
  - destruct (update_loop member_id (PutBody None None None None) family)
      as [[e|rest]|]; try done.
    intros [= <-]. f_equal. by apply IH.
Qed.

(** A PUT whose body has none of the four keys leaves the stored list as
    it is, whatever its outcome. *)
Theorem update_empty_body (w : world) (member_id : Z) :
  fst (load_data
         (snd (update_family_member member_id
                 (PutBody None None None None) w)))
  = fst (load_data w).
Proof.
  rewrite !load_data_run, update_run. simpl.
  destruct (update_loop member_id (PutBody None None None None)
              (default [] (family_ref w)))
    as [[e|updated_family]|] eqn:Hloop; simpl; try done.
  by apply update_loop_empty_body in Hloop.
Qed.



Lemma last_filter_later (i : Z) (l1 l2 : list member) (m : member) :
  Exists (fun m' => id m' = i) l2 ->
  last (filter (fun m' => id m' = i) (l1 ++ m :: l2))
  = last (filter (fun m' => id m' = i) l2).
Proof.
  intros Hlater. change (m :: l2) with ([m] ++ l2).
  rewrite !filter_app, !last_app.
  destruct (last (filter (fun m' => id m' = i) l2)) as [q|] eqn:Hl; [done|].
  apply last_None in Hl. apply Exists_exists in Hlater as (m' & Hin & Hid).
  assert (m' ∈ filter (fun m' => id m' = i) l2) as Hm'
    by (by apply list_elem_of_filter).
  rewrite Hl in Hm'. by apply elem_of_nil in Hm'.
Qed.

(** PUT changes the first stored member with the id, the index reads the
    last one: when a later member carries the same id, the index entry for
    the id is the same before and after the PUT. *)
Theorem update_unseen_by_index (w : world) (member_id : Z)
    (updated_data : put_body) (l1 l2 : list member) (m : member) :
  fst (load_data w) = l1 ++ m :: l2 ->
  Forall (fun m' => id m' <> member_id) l1 -> id m = member_id ->
  Exists (fun m' => id m' = member_id) l2 ->
  id_to_member
    (fst (load_data (snd (update_family_member member_id updated_data w))))
  !! member_id
  = id_to_member (fst (load_data w)) !! member_id.
Proof.
  intros Hload Hl1 Hm Hlater. rewrite !load_data_run in *. simpl in *.
  rewrite update_run, Hload, update_loop_first by done.
  destruct (update_member updated_data m) as [e|m'] eqn:Hm'; simpl;
    [by rewrite Hload|].
  by rewrite !id_to_member_lookup, !last_filter_later.
Qed.

Lemma update_unseen_by_index_witness :
  id_to_member
    (fst (load_data (snd (update_family_member 5
       (PutBody None None (Some (PyInt 6)) None)
       (World (Some ([person 6 "M" (Some PyNone) (Some PyNone)]
                     ++ person 5 "X" (Some PyNone) (Some PyNone)
                     :: [person 5 "Y" (Some PyNone) (Some PyNone)])) [])))))
  !! 5
  = id_to_member
      (fst (load_data
         (World (Some ([person 6 "M" (Some PyNone) (Some PyNone)]
                       ++ person 5 "X" (Some PyNone) (Some PyNone)
                       :: [person 5 "Y" (Some PyNone) (Some PyNone)])) [])))
    !! 5.
Proof.
  apply (update_unseen_by_index _ 5 _
           [person 6 "M" (Some PyNone) (Some PyNone)]
           [person 5 "Y" (Some PyNone) (Some PyNone)]
           (person 5 "X" (Some PyNone) (Some PyNone))).
  - reflexivity.
  - repeat constructor; simpl; lia.
  - reflexivity.
  - apply Exists_cons_hd. reflexivity.
Defined.

(** ** The relationship query *)

Lemma dict_set_to_map (key : Z) (value : relationship)
    (items : list (Z * relationship)) :
  (list_to_map (dict_set key value items) : gmap Z relationship)
  = <[key := value]> (list_to_map items).
Proof.
  induction items as [|[k v] items IH]; simpl; [done|].
  destruct (Z.eqb_spec k key) as [->|Hne].
  - by rewrite !list_to_map_cons, insert_insert_eq.
  - rewrite !list_to_map_cons, IH. by apply insert_insert_ne.
Qed.

Lemma dict_set_keys (key : Z) (value : relationship)
    (items : list (Z * relationship)) :
  (dict_set key value items).*1
  = if decide (key ∈ items.*1) then items.*1 else items.*1 ++ [key].
Proof.
  induction items as [|[k v] items IH]; [done|]. cbn [dict_set].
  destruct (Z.eqb_spec k key) as [->|Hne]; rewrite !fmap_cons; cbn [fst].
  - rewrite decide_True; [done|apply list_elem_of_here].
  - rewrite IH. destruct (decide (key ∈ items.*1)) as [Hin|Hnin].
    + rewrite decide_True; [done|by apply list_elem_of_further].
    + rewrite decide_False; [done|].
      intros [?|?]%elem_of_cons; congruence.
Qed.

Lemma dict_set_NoDup (key : Z) (value : relationship)
    (items : list (Z * relationship)) :
  NoDup items.*1 -> NoDup (dict_set key value items).*1.
Proof.
  intros Hnd. rewrite dict_set_keys.
  destruct (decide (key ∈ items.*1)) as [Hin|Hnin]; [done|].
  apply NoDup_app. split; [done|]. split; [|apply NoDup_singleton].
  intros k Hk ->%list_elem_of_singleton. done.
Qed.

Lemma relate_items_fold (index : gmap Z member) (member_id : Z)
    (family : list member) (items : list (Z * relationship)) :
  NoDup items.*1 ->
  (list_to_map (foldl (relate_step_items index member_id) items family)
     : gmap Z relationship)
  = foldl (relate_step index member_id) (list_to_map items) family /\
  NoDup (foldl (relate_step_items index member_id) items family).*1.
Proof.
  revert items. induction family as [|m family IH]; intros items Hnd; simpl;
    [done|].
  unfold relate_step_items at 2 4, relate_step at 2.
  destruct (id m =? member_id); [by apply IH|].
  destruct (relate index member_id m) as [r|]; [|by apply IH].
  rewrite <- dict_set_to_map. apply IH. by apply dict_set_NoDup.
Qed.

Lemma describe_relationship_run (member_id : Z) (w : world) :
  describe_relationship member_id w
  = (map (fun item : Z * relationship =>
            RelationshipEntry (fst item)
              (name_of (default [] (family_ref w)) (fst item))
              (relationship_label (snd item)))
         (calculate_relationship_items (default [] (family_ref w)) member_id),
     200,
     World (family_ref w) (calls w ++ [DbGet])).
Proof.
  unfold describe_relationship, io_bind. rewrite load_data_run.
  by destruct (calculate_relationship_items _ _).
Qed.

Lemma calculate_relationship_items_spec (family : list member)
    (member_id : Z) :
  NoDup (calculate_relationship_items family member_id).*1 /\
  list_to_map (calculate_relationship_items family member_id)
  = calculate_relationship family member_id /\
  (forall i r, (i, r) ∈ calculate_relationship_items family member_id <->
               calculate_relationship family member_id !! i = Some r).
Proof.
  destruct (relate_items_fold (id_to_member family) member_id family [])
    as [Hmap Hnd]; [apply NoDup_nil_2|].
  split; [done|]. split; [done|].
  intros i r. unfold calculate_relationship.
  change (∅ : gmap Z relationship) with
    (list_to_map ([] : list (Z * relationship)) : gmap Z relationship).
  rewrite <- Hmap. by rewrite <- elem_of_list_to_map.
Qed.


(** Every element of the answer of the relationship query names a stored
    member other than the subject: its name is the name of the first
    stored member with its id, never the default "Unknown" of the lookup,
    and its label is the one the mapping holds for the id. *)
Theorem described_entries (member_id : Z) (w : world)
    (e : relationship_entry) :
  e ∈ fst (fst (describe_relationship member_id w)) ->
  exists m r,
    List.find (fun m => id m =? entry_id e) (fst (load_data w)) = Some m /\
    entry_name e = name m /\ entry_id e <> member_id /\
    calculate_relationship (fst (load_data w)) member_id !! entry_id e
    = Some r /\
    entry_relationship e = relationship_label r.
Proof.
  rewrite describe_relationship_run, load_data_run. simpl.
  intros ([k r] & -> & Hitem)%list_elem_of_fmap. simpl.
  apply calculate_relationship_items_spec in Hitem.
  pose proof Hitem as (m & Hin & Hid & Hne & _)%calculate_relationship_origin.
  unfold name_of.
  destruct (List.find (fun m => id m =? k) (default [] (family_ref w)))
    as [m0|] eqn:Hfind.
  - exists m0, r. repeat split; try done. congruence.
  - apply list_elem_of_In in Hin.
    apply (find_none _ _ Hfind) in Hin. apply Z.eqb_neq in Hin. done.
Qed.

Lemma described_entries_witness :
  exists m r,
    List.find (fun m => id m =? entry_id (RelationshipEntry 2 "B" "Anak"))
      (fst (load_data (World (Some scenario_A) []))) = Some m /\
    entry_name (RelationshipEntry 2 "B" "Anak") = name m /\
    entry_id (RelationshipEntry 2 "B" "Anak") <> 1 /\
    calculate_relationship (fst (load_data (World (Some scenario_A) []))) 1
    !! entry_id (RelationshipEntry 2 "B" "Anak") = Some r /\
    entry_relationship (RelationshipEntry 2 "B" "Anak") = relationship_label r.
Proof.
  apply (described_entries 1 (World (Some scenario_A) [])).
  vm_compute. member_of_list.
Defined.

(** The relationship query only reads the store and answers 200; its
    answer holds one element for every id the mapping labels and no two
    elements with the same id. *)
Theorem described_ids (member_id : Z) (w : world) :
  snd (describe_relationship member_id w)
  = World (family_ref w) (calls w ++ [DbGet]) /\
  snd (fst (describe_relationship member_id w)) = 200 /\
  NoDup (map entry_id (fst (fst (describe_relationship member_id w)))) /\
  (forall i r,
     calculate_relationship (fst (load_data w)) member_id !! i = Some r ->
     RelationshipEntry i (name_of (fst (load_data w)) i) (relationship_label r)
     ∈ fst (fst (describe_relationship member_id w))).
Proof.
  rewrite describe_relationship_run, load_data_run. simpl.
  split; [done|]. split; [done|]. split.
  - rewrite map_map. simpl. apply calculate_relationship_items_spec.
  - intros i r Hitem%calculate_relationship_items_spec.
    apply list_elem_of_fmap. by exists (i, r).
Qed.
